(** * Resilient change-subscription channel: the two React hooks

    Shallow embedding of [src/hooks/use-supabase-websocket.ts]
    (module [Supa]) and of [src/hooks/use-websocket.ts] (module [Sock]).

    A hook instance is a record holding its [useState] cells and its
    [useRef] cells.  What the hooks call but do not own -- the JavaScript
    timer queue, the backend client and the consumer's callbacks -- is
    kept in the same record as explicit environment state, and every
    call that leaves the hook is appended to a trace.  The hook bodies
    are written in a small state-and-exception monad so that
    [try]/[catch] reads as in the source.

    The consumers of the hooks follow: [sendMessage] (module [Send]),
    the realtime handlers and [parseStudentInfo] of the two dashboards
    (module [Dash]) and the request form's [handleSubmit] (module
    [Form]). *)

From Stdlib Require Import List String Bool Arith PeanoNat Lia.
From Stdlib Require Import ZArith.
From Stdlib Require Import QArith.
Close Scope Q_scope.
Import ListNotations.
Open Scope string_scope.

(** ** State and exception monad *)

Section Monad.
Variable St : Type.

Inductive Outcome (A : Type) : Type :=
| Returned (a : A) (s : St)
| Thrown (e : string) (s : St).

Definition M (A : Type) : Type := St -> Outcome A.

Definition ret {A} (a : A) : M A := fun s => Returned A a s.

Definition bind {A B} (m : M A) (k : A -> M B) : M B :=
  fun s => match m s with
           | Returned _ a s' => k a s'
           | Thrown _ e s' => Thrown B e s'
           end.

Definition throw {A} (e : string) : M A := fun s => Thrown A e s.

Definition tryCatch {A} (body : M A) (handler : string -> M A) : M A :=
  fun s => match body s with
           | Returned _ a s' => Returned A a s'
           | Thrown _ e s' => handler e s'
           end.

Definition gets {A} (f : St -> A) : M A := fun s => Returned A (f s) s.

Definition modify (f : St -> St) : M unit := fun s => Returned unit tt (f s).

Definition finalState {A} (o : Outcome A) : St :=
  match o with
  | Returned _ _ s => s
  | Thrown _ _ s => s
  end.

Definition returns {A} (o : Outcome A) : bool :=
  match o with
  | Returned _ _ _ => true
  | Thrown _ _ _ => false
  end.
End Monad.

Arguments Returned {St A} a s.
Arguments Thrown {St A} e s.
Arguments bind {St A B} m k _.
Arguments tryCatch {St A} body handler _.
Arguments finalState {St A} o.
Arguments returns {St A} o.
Arguments ret {St A} a _.
Arguments throw {St A} e _.
Arguments gets {St A} f _.
Arguments modify {St} f _.

Declare Scope hook_scope.
Delimit Scope hook_scope with hook.
Notation "x <- c1 ;; c2" := (bind c1 (fun x => c2))
  (at level 61, c1 at next level, right associativity) : hook_scope.
Notation "c1 ;; c2" := (bind c1 (fun _ => c2))
  (at level 61, right associativity) : hook_scope.
Notation "'when' b 'then' c" := (if b then c else ret tt)
  (at level 60, b at level 9, c at level 60) : hook_scope.

(** ** use-supabase-websocket.ts *)

Module Supa.

Inductive SupabaseWebSocketStatus : Type :=
| connecting | connected | disconnected | error.

(** The status signal the backend passes to the [subscribe] callback. *)
Inductive REALTIME_SUBSCRIBE_STATES : Type :=
| SUBSCRIBED | TIMED_OUT | CLOSED | CHANNEL_ERROR.

(** The [event] field of the three [postgres_changes] registrations. *)
Inductive ChangeKind : Type := INSERT | UPDATE | DELETE.

Definition ChangeKind_eqb (a b : ChangeKind) : bool :=
  match a, b with
  | INSERT, INSERT | UPDATE, UPDATE | DELETE, DELETE => true
  | _, _ => false
  end.

(** The part of [UseSupabaseWebSocketOptions] that [connect] closes over
    ([useCallback] dependencies [enabled, channelName, table, filter]);
    [enabled] already carries its default [true]. *)
Record Props : Type := mkProps {
  channelName : string;
  table : string;
  filter : option string;
  enabled : bool
}.

(** A consumer callback: [None] when it returns, [Some e] when it throws
    an exception with message [e].  Payloads and [Error] objects are
    represented by their text. *)
Definition Handler : Type := string -> option string.

(** [callbacksRef.current]. *)
Record Callbacks : Type := mkCallbacks {
  onInsert : option Handler;
  onUpdate : option Handler;
  onDelete : option Handler;
  onError : option Handler
}.

Inductive HandlerName : Type := OnInsert | OnUpdate | OnDelete | OnError.

Definition handlerOf (n : HandlerName) (c : Callbacks) : option Handler :=
  match n with
  | OnInsert => onInsert c
  | OnUpdate => onUpdate c
  | OnDelete => onDelete c
  | OnError => onError c
  end.

(** Who armed a timer: the subscribe callback (line 130, 3000 ms) or
    [reconnect] (line 164, 100 ms).  Both run the [connect] closure they
    captured. *)
Inductive Task : Type := RetryTask | SettleTask.

Record Timer : Type := mkTimer {
  timerId : nat;
  task : Task;
  closure : Props;
  delay : nat
}.

(** Calls that leave the hook, newest first in the trace. *)
Inductive Effect : Type :=
| RemoveChannel (h : nat)
| Subscribe (h : nat) (p : Props)
| SetTimeout (t : nat) (k : Task) (ms : nat)
| ClearTimeout (t : nat)
| Invoke (n : HandlerName) (arg : string)
| ConsoleError (msg : string)
| Uncaught (msg : string).

Record State : Type := mkState {
  (* useState *)
  status : SupabaseWebSocketStatus;
  channel : option nat;
  (* useRef *)
  reconnectTimeoutRef : option nat;
  reconnectAttemptsRef : nat;
  channelRef : option nat;
  callbacksRef : Callbacks;
  (* the JavaScript timer queue *)
  timers : list Timer;
  nextTimer : nat;
  (* channels registered with the backend client *)
  channels : list nat;
  nextHandle : nat;
  trace : list Effect
}.

Definition maxReconnectAttempts : nat := 10.
Definition reconnectInterval : nat := 3000.

(** *** Cell updates *)

Definition with_status v s :=
  mkState v (channel s) (reconnectTimeoutRef s) (reconnectAttemptsRef s)
    (channelRef s) (callbacksRef s) (timers s) (nextTimer s) (channels s)
    (nextHandle s) (trace s).
Definition with_channel v s :=
  mkState (status s) v (reconnectTimeoutRef s) (reconnectAttemptsRef s)
    (channelRef s) (callbacksRef s) (timers s) (nextTimer s) (channels s)
    (nextHandle s) (trace s).
Definition with_reconnectTimeoutRef v s :=
  mkState (status s) (channel s) v (reconnectAttemptsRef s)
    (channelRef s) (callbacksRef s) (timers s) (nextTimer s) (channels s)
    (nextHandle s) (trace s).
Definition with_reconnectAttemptsRef v s :=
  mkState (status s) (channel s) (reconnectTimeoutRef s) v
    (channelRef s) (callbacksRef s) (timers s) (nextTimer s) (channels s)
    (nextHandle s) (trace s).
Definition with_channelRef v s :=
  mkState (status s) (channel s) (reconnectTimeoutRef s) (reconnectAttemptsRef s)
    v (callbacksRef s) (timers s) (nextTimer s) (channels s)
    (nextHandle s) (trace s).
Definition with_callbacksRef v s :=
  mkState (status s) (channel s) (reconnectTimeoutRef s) (reconnectAttemptsRef s)
    (channelRef s) v (timers s) (nextTimer s) (channels s)
    (nextHandle s) (trace s).
Definition with_timers v n s :=
  mkState (status s) (channel s) (reconnectTimeoutRef s) (reconnectAttemptsRef s)
    (channelRef s) (callbacksRef s) v n (channels s)
    (nextHandle s) (trace s).
Definition with_channels v n s :=
  mkState (status s) (channel s) (reconnectTimeoutRef s) (reconnectAttemptsRef s)
    (channelRef s) (callbacksRef s) (timers s) (nextTimer s) v
    n (trace s).
Definition emit (e : Effect) s :=
  mkState (status s) (channel s) (reconnectTimeoutRef s) (reconnectAttemptsRef s)
    (channelRef s) (callbacksRef s) (timers s) (nextTimer s) (channels s)
    (nextHandle s) (e :: trace s).

Local Open Scope hook_scope.

Definition setStatus (v : SupabaseWebSocketStatus) : M State unit :=
  modify (with_status v).
Definition setChannel (v : option nat) : M State unit :=
  modify (with_channel v).

(** *** The environment's primitives *)

(** [setTimeout(f, ms)]: a fresh id joins the queue. *)
Definition setTimeout (k : Task) (p : Props) (ms : nat) : M State nat :=
  fun s =>
    let t := nextTimer s in
    Returned t
      (emit (SetTimeout t k ms)
         (with_timers (mkTimer t k p ms :: timers s) (S t) s)).

(** [clearTimeout(t)]: the timer leaves the queue if it is still there. *)
Definition clearTimeout (t : nat) : M State unit :=
  fun s =>
    Returned tt
      (emit (ClearTimeout t)
         (with_timers (List.filter (fun x => negb (Nat.eqb (timerId x) t)) (timers s))
            (nextTimer s) s)).

(** [supabase.removeChannel(h)]: an async function of the client; it
    returns a promise and raises nothing into its caller. *)
Definition removeChannel (h : nat) : M State unit :=
  fun s =>
    Returned tt
      (emit (RemoveChannel h)
         (with_channels (List.filter (fun x => negb (Nat.eqb x h)) (channels s))
            (nextHandle s) s)).

(** [supabase.channel(..).on(..).on(..).on(..).subscribe(cb)], lines
    77-137.  The backend decides whether the chain returns the new
    channel ([bk = None]) or throws ([bk = Some e]). *)
Definition subscribe (p : Props) (bk : option string) : M State nat :=
  fun s =>
    match bk with
    | Some e => Thrown e s
    | None =>
        let h := nextHandle s in
        Returned h
          (emit (Subscribe h p) (with_channels (h :: channels s) (S h) s))
    end.

(** [callbacksRef.current.f?.(arg)]. *)
Definition callHandler (n : HandlerName) (arg : string) : M State unit :=
  cbs <- gets callbacksRef ;;
  match handlerOf n cbs with
  | None => ret tt
  | Some f =>
      modify (emit (Invoke n arg)) ;;
      match f arg with
      | None => ret tt
      | Some e => throw e
      end
  end.

Definition consoleError (msg : string) : M State unit :=
  modify (emit (ConsoleError msg)).

(** [err?.message || "Channel error"]: an absent error and an empty
    message both fall back to the default text. *)
Definition errorMessage (err : option string) : string :=
  match err with
  | Some "" => "Channel error"
  | Some m => m
  | None => "Channel error"
  end.

(** *** The hook's functions *)

(** The callback given to [subscribe], lines 120-137.  It closes over
    the [connect] of the render that created it, hence over [p]. *)
Definition subscribeCallback (p : Props) (st : REALTIME_SUBSCRIBE_STATES)
    (err : option string) : M State unit :=
  match st with
  | SUBSCRIBED =>
      setStatus connected ;;
      modify (with_reconnectAttemptsRef 0)
  | CHANNEL_ERROR | TIMED_OUT =>
      setStatus error ;;
      callHandler OnError (errorMessage err) ;;
      n <- gets reconnectAttemptsRef ;;
      when (Nat.ltb n maxReconnectAttempts) then
        (modify (with_reconnectAttemptsRef (n + 1)) ;;
         t <- setTimeout RetryTask p reconnectInterval ;;
         modify (with_reconnectTimeoutRef (Some t)))
  | CLOSED =>
      setStatus disconnected
  end.

(** [connect], lines 60-146. *)
Definition connect (p : Props) (bk : option string) : M State unit :=
  if negb (enabled p) then
    setStatus disconnected
  else
    (cur <- gets channelRef ;;
     match cur with
     | Some h =>
         removeChannel h ;;
         modify (with_channelRef None) ;;
         setChannel None
     | None => ret tt
     end) ;;
    tryCatch
      (setStatus connecting ;;
       newChannel <- subscribe p bk ;;
       modify (with_channelRef (Some newChannel)) ;;
       setChannel (Some newChannel))
      (fun e =>
         setStatus error ;;
         callHandler OnError e ;;
         consoleError e).

(** [disconnect], lines 148-159. *)
Definition disconnect : M State unit :=
  (t <- gets reconnectTimeoutRef ;;
   match t with
   | Some t =>
       clearTimeout t ;;
       modify (with_reconnectTimeoutRef None)
   | None => ret tt
   end) ;;
  (cur <- gets channelRef ;;
   match cur with
   | Some h =>
       removeChannel h ;;
       modify (with_channelRef None) ;;
       setChannel None
   | None => ret tt
   end) ;;
  setStatus disconnected.

(** [reconnect], lines 161-167. *)
Definition reconnect (p : Props) : M State unit :=
  disconnect ;;
  modify (with_reconnectAttemptsRef 0) ;;
  _ <- setTimeout SettleTask p 100 ;;
  ret tt.

(** The body of the second [useEffect], lines 170-174, and its cleanup,
    lines 176-178. *)
Definition effect (p : Props) (bk : option string) : M State unit :=
  if enabled p then connect p bk else disconnect.

Definition cleanup : M State unit := disconnect.

(** *** Change events *)

(** The three arrow functions of lines 92-94, 104-106 and 116-118. *)
Inductive Listener : Type := InsertListener | UpdateListener | DeleteListener.

Definition runListener (l : Listener) (payload : string) : M State unit :=
  match l with
  | InsertListener => callHandler OnInsert payload
  | UpdateListener => callHandler OnUpdate payload
  | DeleteListener => callHandler OnDelete payload
  end.

(** One [.on("postgres_changes", {...}, listener)] registration. *)
Record Binding : Type := mkBinding {
  bEvent : ChangeKind;
  bSchema : string;
  bTable : string;
  bFilter : option string;
  bListener : Listener
}.

(** [filter ? filter : undefined]: the empty string is falsy. *)
Definition filterArg (f : option string) : option string :=
  match f with
  | Some "" => None
  | other => other
  end.

(** The registrations [connect] makes, in source order. *)
Definition bindingsOf (p : Props) : list Binding :=
  [ mkBinding INSERT "public" (table p) (filterArg (filter p)) InsertListener;
    mkBinding UPDATE "public" (table p) (filterArg (filter p)) UpdateListener;
    mkBinding DELETE "public" (table p) (filterArg (filter p)) DeleteListener ].

Fixpoint runListeners (ls : list Listener) (payload : string) : M State unit :=
  match ls with
  | [] => ret tt
  | l :: rest => runListener l payload ;; runListeners rest payload
  end.

(** The realtime client is not part of the repository; its routing is
    taken from the registrations: a change of kind [k] goes to the
    listeners whose [event] is [k], in registration order, inside the
    task that received it. *)
Definition deliver (p : Props) (k : ChangeKind) (payload : string) : M State unit :=
  runListeners
    (map bListener (List.filter (fun b => ChangeKind_eqb (bEvent b) k) (bindingsOf p)))
    payload.

(** *** The event loop *)

(** An exception that leaves a task is reported by the host and the
    loop goes on with the next task. *)
Definition host (m : M State unit) (s : State) : State :=
  match m s with
  | Returned _ s' => s'
  | Thrown e s' => emit (Uncaught e) s'
  end.

Fixpoint closureOf (h : nat) (tr : list Effect) : option Props :=
  match tr with
  | [] => None
  | Subscribe h' p :: rest => if Nat.eqb h' h then Some p else closureOf h rest
  | _ :: rest => closureOf h rest
  end.

Definition findTimer (t : nat) (q : list Timer) : option Timer :=
  find (fun x => Nat.eqb (timerId x) t) q.

Inductive Event : Type :=
| Effect_run (p : Props) (bk : option string)
| Effect_cleanup
| Call_reconnect (p : Props)
| Call_disconnect
| Timer_fires (t : nat) (bk : option string)
| Confirmation (h : nat) (st : REALTIME_SUBSCRIBE_STATES) (err : option string)
| Change (h : nat) (k : ChangeKind) (payload : string)
| Callbacks_update (c : Callbacks).

(** A timer that fires leaves the queue and runs its closure. *)
Definition fire (t : nat) (bk : option string) : M State unit :=
  q <- gets timers ;;
  match findTimer t q with
  | None => ret tt
  | Some x =>
      modify (fun s => with_timers
                         (List.filter (fun y => negb (Nat.eqb (timerId y) t)) (timers s))
                         (nextTimer s) s) ;;
      connect (closure x) bk
  end.

Definition handle (ev : Event) : M State unit :=
  match ev with
  | Effect_run p bk => effect p bk
  | Effect_cleanup => cleanup
  | Call_reconnect p => reconnect p
  | Call_disconnect => disconnect
  | Timer_fires t bk => fire t bk
  | Confirmation h st err =>
      tr <- gets trace ;;
      match closureOf h tr with
      | Some p => subscribeCallback p st err
      | None => ret tt
      end
  | Change h k payload =>
      tr <- gets trace ;;
      match closureOf h tr with
      | Some p => deliver p k payload
      | None => ret tt
      end
  | Callbacks_update c => modify (with_callbacksRef c)
  end.

Definition step (s : State) (ev : Event) : State := host (handle ev) s.

Definition run (evs : list Event) (s : State) : State := fold_left step evs s.

(** The hook before its first effect. *)
Definition init (c : Callbacks) : State :=
  mkState disconnected None None 0 None c [] 1 [] 1 [].

End Supa.

(** ** use-websocket.ts *)

Module Sock.

Inductive WebSocketStatus : Type :=
| connecting | connected | disconnected | error.

(** [WebSocket.readyState]. *)
Inductive ReadyState : Type := CONNECTING | OPEN | CLOSING | CLOSED.

Definition isOPEN (r : ReadyState) : bool :=
  match r with
  | OPEN => true
  | _ => false
  end.

Definition Handler : Type := string -> option string.

(** A JavaScript number as [maxReconnectAttempts?: number] admits it:
    not only a count.  A finite double is a rational. *)
Inductive Number : Type :=
| NaN
| Infinity
| NegInfinity
| Finite (q : Q).

(** The counter, a non-negative integer, as a number. *)
Definition counter (n : nat) : Q := inject_Z (Z.of_nat n).

(** [n < x] for a counter [n]; every comparison with [NaN] is false. *)
Definition below (n : nat) (x : Number) : bool :=
  match x with
  | NaN => false
  | Infinity => true
  | NegInfinity => false
  | Finite q => negb (Qle_bool q (counter n))
  end.

(** [n >= x] for a counter [n]. *)
Definition atLeast (n : nat) (x : Number) : bool :=
  match x with
  | NaN => false
  | Infinity => false
  | NegInfinity => true
  | Finite q => Qle_bool q (counter n)
  end.

(** What [connect] closes over ([useCallback] dependencies of line 91),
    defaults filled in. *)
Record Options : Type := mkOptions {
  url : string;
  protocols : option (list string);
  onMessage : option Handler;
  onOpen : option Handler;
  onClose : option Handler;
  onError : option Handler;
  reconnectInterval : nat;
  maxReconnectAttempts : Number
}.

Inductive HandlerName : Type := OnMessage | OnOpen | OnClose | OnError.

Definition handlerOf (n : HandlerName) (o : Options) : option Handler :=
  match n with
  | OnMessage => onMessage o
  | OnOpen => onOpen o
  | OnClose => onClose o
  | OnError => onError o
  end.

Inductive Task : Type := RetryTask | SettleTask.

Record Timer : Type := mkTimer {
  timerId : nat;
  task : Task;
  closure : Options;
  delay : nat
}.

Inductive Effect : Type :=
| NewWebSocket (ws : nat) (o : Options)
| Close (ws : nat)
| SetTimeout (t : nat) (k : Task) (ms : nat)
| ClearTimeout (t : nat)
| Invoke (n : HandlerName) (arg : string)
| ConsoleError (msg : string)
| Uncaught (msg : string).

Record State : Type := mkState {
  (* useState *)
  status : WebSocketStatus;
  lastMessage : option string;
  (* useRef *)
  wsRef : option nat;
  reconnectTimeoutRef : option nat;
  reconnectAttemptsRef : nat;
  shouldReconnectRef : bool;
  isManualCloseRef : bool;
  (* the browser: every socket made so far with its readyState *)
  sockets : list (nat * ReadyState);
  nextSocket : nat;
  (* the JavaScript timer queue *)
  timers : list Timer;
  nextTimer : nat;
  trace : list Effect
}.

Definition with_status v s :=
  mkState v (lastMessage s) (wsRef s) (reconnectTimeoutRef s)
    (reconnectAttemptsRef s) (shouldReconnectRef s) (isManualCloseRef s)
    (sockets s) (nextSocket s) (timers s) (nextTimer s) (trace s).
Definition with_lastMessage v s :=
  mkState (status s) v (wsRef s) (reconnectTimeoutRef s)
    (reconnectAttemptsRef s) (shouldReconnectRef s) (isManualCloseRef s)
    (sockets s) (nextSocket s) (timers s) (nextTimer s) (trace s).
Definition with_wsRef v s :=
  mkState (status s) (lastMessage s) v (reconnectTimeoutRef s)
    (reconnectAttemptsRef s) (shouldReconnectRef s) (isManualCloseRef s)
    (sockets s) (nextSocket s) (timers s) (nextTimer s) (trace s).
Definition with_reconnectTimeoutRef v s :=
  mkState (status s) (lastMessage s) (wsRef s) v
    (reconnectAttemptsRef s) (shouldReconnectRef s) (isManualCloseRef s)
    (sockets s) (nextSocket s) (timers s) (nextTimer s) (trace s).
Definition with_reconnectAttemptsRef v s :=
  mkState (status s) (lastMessage s) (wsRef s) (reconnectTimeoutRef s)
    v (shouldReconnectRef s) (isManualCloseRef s)
    (sockets s) (nextSocket s) (timers s) (nextTimer s) (trace s).
Definition with_shouldReconnectRef v s :=
  mkState (status s) (lastMessage s) (wsRef s) (reconnectTimeoutRef s)
    (reconnectAttemptsRef s) v (isManualCloseRef s)
    (sockets s) (nextSocket s) (timers s) (nextTimer s) (trace s).
Definition with_isManualCloseRef v s :=
  mkState (status s) (lastMessage s) (wsRef s) (reconnectTimeoutRef s)
    (reconnectAttemptsRef s) (shouldReconnectRef s) v
    (sockets s) (nextSocket s) (timers s) (nextTimer s) (trace s).
Definition with_sockets v n s :=
  mkState (status s) (lastMessage s) (wsRef s) (reconnectTimeoutRef s)
    (reconnectAttemptsRef s) (shouldReconnectRef s) (isManualCloseRef s)
    v n (timers s) (nextTimer s) (trace s).
Definition with_timers v n s :=
  mkState (status s) (lastMessage s) (wsRef s) (reconnectTimeoutRef s)
    (reconnectAttemptsRef s) (shouldReconnectRef s) (isManualCloseRef s)
    (sockets s) (nextSocket s) v n (trace s).
Definition emit (e : Effect) s :=
  mkState (status s) (lastMessage s) (wsRef s) (reconnectTimeoutRef s)
    (reconnectAttemptsRef s) (shouldReconnectRef s) (isManualCloseRef s)
    (sockets s) (nextSocket s) (timers s) (nextTimer s) (e :: trace s).

Local Open Scope hook_scope.

Definition setStatus (v : WebSocketStatus) : M State unit :=
  modify (with_status v).

Fixpoint readyStateOf (ws : nat) (l : list (nat * ReadyState)) : option ReadyState :=
  match l with
  | [] => None
  | (i, r) :: rest => if Nat.eqb i ws then Some r else readyStateOf ws rest
  end.

Fixpoint setReadyState (ws : nat) (r : ReadyState) (l : list (nat * ReadyState))
    : list (nat * ReadyState) :=
  match l with
  | [] => []
  | (i, r0) :: rest =>
      if Nat.eqb i ws then (i, r) :: rest else (i, r0) :: setReadyState ws r rest
  end.

Definition setTimeout (k : Task) (o : Options) (ms : nat) : M State nat :=
  fun s =>
    let t := nextTimer s in
    Returned t
      (emit (SetTimeout t k ms)
         (with_timers (mkTimer t k o ms :: timers s) (S t) s)).

Definition clearTimeout (t : nat) : M State unit :=
  fun s =>
    Returned tt
      (emit (ClearTimeout t)
         (with_timers (List.filter (fun x => negb (Nat.eqb (timerId x) t)) (timers s))
            (nextTimer s) s)).

(** [new WebSocket(url, protocols)]: the constructor returns a socket in
    state CONNECTING ([bk = None]) or throws ([bk = Some e]). *)
Definition newWebSocket (o : Options) (bk : option string) : M State nat :=
  fun s =>
    match bk with
    | Some e => Thrown e s
    | None =>
        let ws := nextSocket s in
        Returned ws
          (emit (NewWebSocket ws o)
             (with_sockets ((ws, CONNECTING) :: sockets s) (S ws) s))
    end.

(** [ws.close()]: starts the closing handshake unless the socket is
    already CLOSING or CLOSED; the close event comes later. *)
Definition close (ws : nat) : M State unit :=
  fun s =>
    let l := match readyStateOf ws (sockets s) with
             | Some CONNECTING | Some OPEN => setReadyState ws CLOSING (sockets s)
             | _ => sockets s
             end in
    Returned tt (emit (Close ws) (with_sockets l (nextSocket s) s)).

Definition callHandler (o : Options) (n : HandlerName) (arg : string) : M State unit :=
  match handlerOf n o with
  | None => ret tt
  | Some f =>
      modify (emit (Invoke n arg)) ;;
      match f arg with
      | None => ret tt
      | Some e => throw e
      end
  end.

Definition consoleError (msg : string) : M State unit :=
  modify (emit (ConsoleError msg)).

(** [ws.onopen], lines 55-59. *)
Definition onopen (o : Options) (event : string) : M State unit :=
  setStatus connected ;;
  modify (with_reconnectAttemptsRef 0) ;;
  callHandler o OnOpen event.

(** [ws.onmessage], lines 61-64. *)
Definition onmessage (o : Options) (event : string) : M State unit :=
  modify (with_lastMessage (Some event)) ;;
  callHandler o OnMessage event.

(** [ws.onerror], lines 66-69. *)
Definition onerror (o : Options) (event : string) : M State unit :=
  setStatus error ;;
  callHandler o OnError event.

(** [ws.onclose], lines 71-84. *)
Definition onclose (o : Options) (event : string) : M State unit :=
  setStatus disconnected ;;
  callHandler o OnClose event ;;
  manual <- gets isManualCloseRef ;;
  should <- gets shouldReconnectRef ;;
  n <- gets reconnectAttemptsRef ;;
  if negb manual && should && below n (maxReconnectAttempts o) then
    modify (with_reconnectAttemptsRef (n + 1)) ;;
    t <- setTimeout RetryTask o (reconnectInterval o) ;;
    modify (with_reconnectTimeoutRef (Some t))
  else
    when (atLeast n (maxReconnectAttempts o)) then setStatus error.

(** [connect], lines 46-91. *)
Definition connect (o : Options) (bk : option string) : M State unit :=
  cur <- gets wsRef ;;
  l <- gets sockets ;;
  let open := match cur with
              | Some ws => match readyStateOf ws l with
                           | Some r => isOPEN r
                           | None => false
                           end
              | None => false
              end in
  if open then ret tt
  else
    tryCatch
      (setStatus connecting ;;
       ws <- newWebSocket o bk ;;
       modify (with_wsRef (Some ws)))
      (fun e =>
         setStatus error ;;
         consoleError e).

(** [disconnect], lines 102-114. *)
Definition disconnect : M State unit :=
  modify (with_isManualCloseRef true) ;;
  modify (with_shouldReconnectRef false) ;;
  (t <- gets reconnectTimeoutRef ;;
   match t with
   | Some t =>
       clearTimeout t ;;
       modify (with_reconnectTimeoutRef None)
   | None => ret tt
   end) ;;
  (cur <- gets wsRef ;;
   match cur with
   | Some ws =>
       close ws ;;
       modify (with_wsRef None)
   | None => ret tt
   end) ;;
  setStatus disconnected.

(** [reconnect], lines 116-124. *)
Definition reconnect (o : Options) : M State unit :=
  modify (with_isManualCloseRef false) ;;
  modify (with_shouldReconnectRef true) ;;
  modify (with_reconnectAttemptsRef 0) ;;
  disconnect ;;
  _ <- setTimeout SettleTask o 100 ;;
  ret tt.

(** *** The event loop *)

Definition host (m : M State unit) (s : State) : State :=
  match m s with
  | Returned _ s' => s'
  | Thrown e s' => emit (Uncaught e) s'
  end.

Fixpoint closureOf (ws : nat) (tr : list Effect) : option Options :=
  match tr with
  | [] => None
  | NewWebSocket i o :: rest => if Nat.eqb i ws then Some o else closureOf ws rest
  | _ :: rest => closureOf ws rest
  end.

Inductive Event : Type :=
| Effect_run (o : Options) (bk : option string)
| Effect_cleanup
| Call_reconnect (o : Options)
| Call_disconnect
| Timer_fires (t : nat) (bk : option string)
| Socket_open (ws : nat) (event : string)
| Socket_message (ws : nat) (event : string)
| Socket_error (ws : nat) (event : string)
| Socket_close (ws : nat) (event : string).

Definition fire (t : nat) (bk : option string) : M State unit :=
  q <- gets timers ;;
  match find (fun x => Nat.eqb (timerId x) t) q with
  | None => ret tt
  | Some x =>
      modify (fun s => with_timers
                         (List.filter (fun y => negb (Nat.eqb (timerId y) t)) (timers s))
                         (nextTimer s) s) ;;
      connect (closure x) bk
  end.

(** A socket event first moves the socket's [readyState], then runs the
    handler [connect] installed on that socket. *)
Definition socketEvent (ws : nat) (r : option ReadyState)
    (h : Options -> M State unit) : M State unit :=
  tr <- gets trace ;;
  match closureOf ws tr with
  | None => ret tt
  | Some o =>
      match r with
      | Some r => modify (fun s => with_sockets (setReadyState ws r (sockets s))
                                     (nextSocket s) s)
      | None => ret tt
      end ;;
      h o
  end.

Definition handle (ev : Event) : M State unit :=
  match ev with
  | Effect_run o bk => connect o bk
  | Effect_cleanup => disconnect
  | Call_reconnect o => reconnect o
  | Call_disconnect => disconnect
  | Timer_fires t bk => fire t bk
  | Socket_open ws e => socketEvent ws (Some OPEN) (fun o => onopen o e)
  | Socket_message ws e => socketEvent ws None (fun o => onmessage o e)
  | Socket_error ws e => socketEvent ws None (fun o => onerror o e)
  | Socket_close ws e => socketEvent ws (Some CLOSED) (fun o => onclose o e)
  end.

Definition step (s : State) (ev : Event) : State := host (handle ev) s.

Definition run (evs : list Event) (s : State) : State := fold_left step evs s.

(** The hook before its first effect; [shouldReconnectRef] starts from
    the [reconnect] option. *)
Definition init (shouldReconnect : bool) : State :=
  mkState disconnected None None None 0 shouldReconnect false [] 1 [] 1 [].

End Sock.

(** ** use-websocket.ts: sendMessage *)

Module Send.

(** [message: string | object]. *)
Inductive Message (Obj : Type) : Type :=
| Text (data : string)
| Object (o : Obj).

Arguments Text {Obj} data.
Arguments Object {Obj} o.

(** What one call of [sendMessage] does to the outside: [ws.send(data)],
    [console.warn], or an exception out of [JSON.stringify]. *)
Inductive Outgoing : Type :=
| Sent (ws : nat) (data : string)
| Warned (msg : string)
| Raised.

(** [sendMessage], lines 93-100.  [JSON.stringify] is given as
    [stringify]; [None] is the case where it throws. *)
Definition sendMessage {Obj : Type} (stringify : Obj -> option string)
    (message : Message Obj) (s : Sock.State) : Outgoing :=
  let open := match Sock.wsRef s with
              | Some ws => match Sock.readyStateOf ws (Sock.sockets s) with
                           | Some r => Sock.isOPEN r
                           | None => false
                           end
              | None => false
              end in
  match Sock.wsRef s with
  | Some ws =>
      if open then
        match message with
        | Text data => Sent ws data
        | Object o =>
            match stringify o with
            | Some data => Sent ws data
            | None => Raised
            end
        end
      else Warned "WebSocket is not connected. Message not sent."
  | None => Warned "WebSocket is not connected. Message not sent."
  end.

End Send.

(** ** The dashboards that use the hook *)

Module Dash.

(** The row of [gate_pass_requests] as the dashboards read it. *)
Record GatePassRequest : Type := mkRequest {
  id : string;
  student_id : string;
  destination : string;
  reason : string;
  departure_time : string;
  status : string;
  teacher_notes : option string;
  created_at : string;
  updated_at : string
}.

(** The argument of [toast]; [variant] is absent unless given. *)
Record Toast : Type := mkToast {
  title : string;
  description : string;
  variant : option string
}.

(** The two lists of teacher-dashboard.tsx. *)
Record TeacherLists : Type := mkTeacherLists {
  pendingRequests : list GatePassRequest;
  allRequests : list GatePassRequest
}.

(** [onInsert] of teacher-dashboard.tsx, lines 96-105, as the new lists
    and the toasts raised. *)
Definition teacherOnInsert (newRequest : GatePassRequest) (st : TeacherLists)
    : TeacherLists * list Toast :=
  if String.eqb (status newRequest) "pending" then
    (mkTeacherLists (newRequest :: pendingRequests st) (allRequests st),
     [mkToast "New Request"
        ("New gate pass request to " ++ destination newRequest) None])
  else (st, []).

(** [onUpdate] of teacher-dashboard.tsx, lines 106-110. *)
Definition teacherOnUpdate (updatedRequest : GatePassRequest) (st : TeacherLists)
    : TeacherLists * list Toast :=
  (mkTeacherLists
     (List.filter (fun req => negb (String.eqb (id req) (id updatedRequest)))
        (pendingRequests st))
     (updatedRequest ::
      List.filter (fun req => negb (String.eqb (id req) (id updatedRequest)))
        (allRequests st)),
   []).

(** [teacher_notes ? ` Reason: ${teacher_notes}` : ""]: null and the
    empty string are falsy. *)
Definition reasonSuffix (notes : option string) : string :=
  match notes with
  | None => ""
  | Some "" => ""
  | Some n => " Reason: " ++ n
  end.

(** [onUpdate] of student-dashboard.tsx, lines 49-68. *)
Definition studentOnUpdate (updatedRequest : GatePassRequest)
    (requests : list GatePassRequest) : list GatePassRequest * list Toast :=
  (map (fun req => if String.eqb (id req) (id updatedRequest)
                   then updatedRequest else req) requests,
   if String.eqb (status updatedRequest) "approved" then
     [mkToast "Request Approved!"
        ("Your gate pass to " ++ destination updatedRequest ++ " has been approved.")
        None]
   else if String.eqb (status updatedRequest) "denied" then
     [mkToast "Request Denied"
        ("Your gate pass request has been denied."
           ++ reasonSuffix (teacher_notes updatedRequest))
        (Some "destructive")]
   else []).

(** Reading a property of a parsed JSON value: it throws on [null], and
    otherwise only the truthiness of what is found matters here. *)
Inductive PropertyRead : Type := Throws | Falsy | Truthy.

Record StudentNotes (Parsed : Type) : Type := mkStudentNotes {
  studentInfo : option Parsed;
  actualNotes : option string
}.

Arguments mkStudentNotes {Parsed} studentInfo actualNotes.
Arguments studentInfo {Parsed} _.
Arguments actualNotes {Parsed} _.

Section ParseStudentInfo.
Variable Parsed : Type.
(** [JSON.parse]; [None] when it throws. *)
Variable JSON_parse : string -> option Parsed.
(** [parsed.name] used as a condition. *)
Variable read : Parsed -> string -> PropertyRead.

(** [parseStudentInfo] of teacher-dashboard.tsx, lines 40-56. *)
Definition parseStudentInfo (teacherNotes : option string) : StudentNotes Parsed :=
  match teacherNotes with
  | None => mkStudentNotes None None
  | Some "" => mkStudentNotes None None
  | Some notes =>
      match JSON_parse notes with
      | None => mkStudentNotes None (Some notes)
      | Some parsed =>
          match read parsed "student_name" with
          | Throws => mkStudentNotes None (Some notes)
          | Truthy => mkStudentNotes (Some parsed) None
          | Falsy =>
              match read parsed "student_id_number" with
              | Throws => mkStudentNotes None (Some notes)
              | Truthy => mkStudentNotes (Some parsed) None
              | Falsy => mkStudentNotes None (Some notes)
              end
          end
      end
  end.

(** [{ ...studentInfo, teacher_comment: notes }] put through
    [JSON.stringify]. *)
Variable withComment : Parsed -> string -> string.

(** [finalNotes] of [handleApprove] and [handleDeny], lines 126-130 and
    155-159; [selected] is [selectedRequest]. *)
Definition finalNotes (selected : option GatePassRequest) (notes : string) : string :=
  let teacherNotes := match selected with
                      | Some r => match teacher_notes r with
                                  | Some "" => None
                                  | other => other
                                  end
                      | None => None
                      end in
  match studentInfo (parseStudentInfo teacherNotes) with
  | Some info => withComment info notes
  | None => notes
  end.
End ParseStudentInfo.

Arguments parseStudentInfo {Parsed} JSON_parse read teacherNotes.
Arguments finalNotes {Parsed} JSON_parse read withComment selected notes.

End Dash.

(** ** The request form *)

Module Form.

(** The nine fields of the form of src/unnamed/part_000. *)
Record Fields : Type := mkFields {
  name : string;
  studentId : string;
  mobileNo : string;
  email : string;
  branch : string;
  course : string;
  section : string;
  reason : string;
  departureTime : string
}.

(** The object given to [JSON.stringify] for [teacher_notes]. *)
Record StudentInfo : Type := mkStudentInfo {
  student_name : string;
  student_id_number : string;
  mobile_no : string;
  info_email : string;
  info_branch : string;
  info_course : string;
  info_section : string
}.

(** The row given to [insert]. *)
Record Row : Type := mkRow {
  student_id : string;
  destination : string;
  row_reason : string;
  departure_time : string;
  status : string;
  teacher_notes : string
}.

(** [!s] on a string. *)
Definition blank (s : string) : bool :=
  match s with
  | EmptyString => true
  | String _ _ => false
  end.

Definition isDigit (c : Ascii.ascii) : bool :=
  Nat.leb 48 (Ascii.nat_of_ascii c) && Nat.leb (Ascii.nat_of_ascii c) 57.

Fixpoint allDigits (s : string) : bool :=
  match s with
  | EmptyString => true
  | String c rest => isDigit c && allDigits rest
  end.

(** [/^[0-9]{10}$/.test(s)]. *)
Definition mobileRegex_test (s : string) : bool :=
  Nat.eqb (String.length s) 10 && allDigits s.

(** How [handleSubmit] ends: with [setError] before anything is sent,
    with the row inserted, or with the [catch] block. *)
Inductive Submission : Type :=
| Rejected (error : string)
| Inserted (row : Row)
| Failed (errorMessage : string).

Section HandleSubmit.
(** [new Date(s)] as milliseconds; [None] for an Invalid Date. *)
Variable parseDate : string -> option Z.
(** [new Date()] at the comparison. *)
Variable now : Z.
Variable toISOString : Z -> string.
(** The message of the [RangeError] that [toISOString] throws on an
    Invalid Date; it is the engine's. *)
Variable rangeErrorMessage : string.
Variable JSON_stringify : StudentInfo -> string.
(** The result of the [insert]: [None] on success; otherwise the value
    that reaches [catch], [Some (Some m)] an [Error] with message [m],
    [Some None] anything else. *)
Variable insert : Row -> option (option string).

(** [handleSubmit], lines 74-135. *)
Definition handleSubmit (userId : string) (f : Fields) : Submission :=
  if blank (name f) || blank (studentId f) || blank (mobileNo f)
     || blank (email f) || blank (branch f) || blank (course f)
     || blank (section f) || blank (reason f) || blank (departureTime f)
  then Rejected "Please fill in all fields"
  else if negb (mobileRegex_test (mobileNo f))
  then Rejected "Mobile number must be exactly 10 digits"
  else
    let selectedTime := parseDate (departureTime f) in
    let notAfterNow := match selectedTime with
                       | Some t => Z.leb t now
                       | None => false
                       end in
    if notAfterNow then Rejected "Departure time must be in the future"
    else
      match selectedTime with
      | None => Failed rangeErrorMessage
      | Some t =>
          let row :=
            mkRow userId
              (branch f ++ " - " ++ course f ++ " - Section " ++ section f)
              (reason f) (toISOString t) "pending"
              (JSON_stringify
                 (mkStudentInfo (name f) (studentId f) (mobileNo f) (email f)
                    (branch f) (course f) (section f))) in
          match insert row with
          | None => Inserted row
          | Some (Some m) => Failed m
          | Some None => Failed "An error occurred"
          end
      end.
End HandleSubmit.

End Form.

(** * Vocabulary of the properties *)

Import Supa.
Open Scope list_scope.

(** The caller sees no exception. *)
Definition completes {St A} (o : Outcome St A) : Prop := returns o = true.

(** A confirmation that reports a failed subscription. *)
Definition isFailure (st : REALTIME_SUBSCRIBE_STATES) : bool :=
  match st with
  | CHANNEL_ERROR | TIMED_OUT => true
  | SUBSCRIBED | CLOSED => false
  end.

(** Retry timers armed so far, read off the trace. *)
Fixpoint retriesArmed (tr : list Effect) : nat :=
  match tr with
  | [] => 0
  | SetTimeout _ RetryTask _ :: older => S (retriesArmed older)
  | _ :: older => retriesArmed older
  end.

(** Events that put [reconnectAttemptsRef] back to 0. *)
Definition resets (ev : Event) : bool :=
  match ev with
  | Confirmation _ SUBSCRIBED _ => true
  | Call_reconnect _ => true
  | _ => false
  end.

(** The subscribe callback run as a task of its own. *)
Definition confirm (s : State)
    (c : Props * REALTIME_SUBSCRIBE_STATES * option string) : State :=
  let '(p, st, err) := c in host (subscribeCallback p st err) s.

(** Handles the backend holds for this hook according to the trace
    (newest effect first); [None] as soon as some [Subscribe] happened
    while an earlier handle was still held. *)
Fixpoint held (tr : list Effect) : option (list nat) :=
  match tr with
  | [] => Some []
  | Subscribe h _ :: older =>
      match held older with
      | Some [] => Some [h]
      | _ => None
      end
  | RemoveChannel h :: older =>
      option_map (List.filter (fun x => negb (Nat.eqb x h))) (held older)
  | _ :: older => held older
  end.

Definition optlist (o : option nat) : list nat :=
  match o with
  | Some h => [h]
  | None => []
  end.

Definition isRetry (x : Timer) : bool :=
  match task x with
  | RetryTask => true
  | SettleTask => false
  end.

(** Retry timers still in the queue. *)
Definition pendingRetries (s : State) : list nat :=
  map timerId (List.filter isRetry (timers s)).

(** Single flight: every retry timer in the queue is the one recorded
    in [reconnectTimeoutRef]. *)
Definition singleFlight (s : State) : Prop :=
  forall x, In x (timers s) -> isRetry x = true ->
            reconnectTimeoutRef s = Some (timerId x).

(** The handler the delivery contract assigns to a change kind. *)
Definition matchingHandler (k : ChangeKind) : HandlerName :=
  match k with
  | INSERT => OnInsert
  | UPDATE => OnUpdate
  | DELETE => OnDelete
  end.

(** What one change event adds to the trace, oldest effect first: the
    call of the registered handler and, when that call throws, the
    host's report of the exception. *)
Definition dispatchTrace (c : Callbacks) (ev : ChangeKind * string) : list Effect :=
  match handlerOf (matchingHandler (fst ev)) c with
  | None => []
  | Some f =>
      Invoke (matchingHandler (fst ev)) (snd ev) ::
      match f (snd ev) with
      | None => []
      | Some e => [Uncaught e]
      end
  end.

(** The handler calls the delivery contract asks for, oldest first. *)
Definition expectedCalls (c : Callbacks) (ev : ChangeKind * string) : list Effect :=
  match handlerOf (matchingHandler (fst ev)) c with
  | None => []
  | Some _ => [Invoke (matchingHandler (fst ev)) (snd ev)]
  end.

Definition isInvoke (e : Effect) : bool :=
  match e with
  | Invoke _ _ => true
  | _ => false
  end.

Definition changeEvents (h : nat) (evs : list (ChangeKind * string)) : list Event :=
  map (fun ev => Change h (fst ev) (snd ev)) evs.

(** [onError], when registered, returns normally on every error. *)
Definition onErrorReturns (c : Callbacks) : Prop :=
  match onError c with
  | Some f => forall e, f e = None
  | None => True
  end.

(** The state with its trace replaced. *)
Definition with_trace (tr : list Effect) (s : State) : State :=
  mkState (status s) (channel s) (reconnectTimeoutRef s) (reconnectAttemptsRef s)
    (channelRef s) (callbacksRef s) (timers s) (nextTimer s) (channels s)
    (nextHandle s) tr.

(** The handle discipline: the trace never subscribes over a held
    handle, the backend holds exactly the handle in [channelRef], and
    the [channel] cell mirrors the ref. *)
Definition handleInv (s : State) : Prop :=
  held (trace s) = Some (channels s) /\
  channels s = optlist (channelRef s) /\
  channel s = channelRef s.

(** [n] rounds of: the subscription of handle [h] times out, then the
    retry timer [t] it armed fires and [connect] succeeds in creating
    the next subscription. *)
Fixpoint retryCycles (n h t : nat) : list Event :=
  match n with
  | 0 => []
  | S n' =>
      Confirmation h TIMED_OUT None :: Timer_fires t None ::
      retryCycles n' (S h) (S t)
  end.

(** Sample descriptors and callbacks used by the examples. *)
Definition teacherProps : Props :=
  mkProps "gate_pass_all" "gate_pass_requests" None true.

Definition teacherPropsDisabled : Props :=
  mkProps "gate_pass_all" "gate_pass_requests" None false.

Definition quietCallbacks : Callbacks :=
  mkCallbacks (Some (fun _ => None)) (Some (fun _ => None)) None
    (Some (fun _ => None)).

Definition throwingInsert : Callbacks :=
  mkCallbacks (Some (fun _ => Some "boom")) (Some (fun _ => None)) None
    (Some (fun _ => None)).

Definition throwingOnError : Callbacks :=
  mkCallbacks None None None (Some (fun _ => Some "toast failed")).

(** Mount, then ten failed attempts each followed by its retry. *)
Definition exhaustion : list Event :=
  Effect_run teacherProps None :: retryCycles 10 1 1.

(** Mount and a confirmed subscription. *)
Definition mounted (c : Callbacks) : State :=
  run [Effect_run teacherProps None; Confirmation 1 SUBSCRIBED None] (init c).

(** Mount, then two failure reports for the one subscription before the
    first retry timer has fired. *)
Definition twoFailures : State :=
  run [Effect_run teacherProps None;
       Confirmation 1 CHANNEL_ERROR None;
       Confirmation 1 TIMED_OUT None] (init quietCallbacks).

Definition socketOptions : Sock.Options :=
  Sock.mkOptions "wss://example.test/socket" None None None None None 3000
    (Sock.Finite 10).

(** Retry timers armed so far by the raw WebSocket hook. *)
Fixpoint sockRetriesArmed (tr : list Sock.Effect) : nat :=
  match tr with
  | [] => 0
  | Sock.SetTimeout _ Sock.RetryTask _ :: older => S (sockRetriesArmed older)
  | _ :: older => sockRetriesArmed older
  end.

(** The descriptors an event brings with it. *)
Definition propsOf (ev : Event) : list Props :=
  match ev with
  | Effect_run p _ => [p]
  | Call_reconnect p => [p]
  | _ => []
  end.

Definition rendersDisabled (ev : Event) : bool :=
  forallb (fun p => negb (enabled p)) (propsOf ev).

(** Effects that reach neither the backend nor the consumer. *)
Definition silent (e : Effect) : bool :=
  match e with
  | SetTimeout _ _ _ | ClearTimeout _ => true
  | _ => false
  end.

Definition isSubscribedConfirmation (ev : Event) : bool :=
  match ev with
  | Confirmation _ SUBSCRIBED _ => true
  | _ => false
  end.

Definition isSocketOpen (ev : Sock.Event) : bool :=
  match ev with
  | Sock.Socket_open _ _ => true
  | _ => false
  end.

(** The options an event of the raw hook brings with it. *)
Definition optionsOf (ev : Sock.Event) : list Sock.Options :=
  match ev with
  | Sock.Effect_run o _ => [o]
  | Sock.Call_reconnect o => [o]
  | _ => []
  end.

(** The same number: equal as values, whatever the fraction's form. *)
Definition sameNumber (a b : Sock.Number) : bool :=
  match a, b with
  | Sock.NaN, Sock.NaN => true
  | Sock.Infinity, Sock.Infinity => true
  | Sock.NegInfinity, Sock.NegInfinity => true
  | Sock.Finite q, Sock.Finite r => Qeq_bool q r
  | _, _ => false
  end.

(** A cap that is a count. *)
Definition natCap (m : nat) : Sock.Number := Sock.Finite (Sock.counter m).

Definition capIs (x : Sock.Number) (ev : Sock.Event) : bool :=
  forallb (fun o => sameNumber (Sock.maxReconnectAttempts o) x) (optionsOf ev).

(** The counter is 0, or it was raised from a value below the cap. *)
Definition withinCap (n : nat) (x : Sock.Number) : Prop :=
  n = 0 \/ Sock.below (pred n) x = true.

(** The cap is [x] in every closure the raw hook has handed out. *)
Definition sockCapInv (x : Sock.Number) (s : Sock.State) : Prop :=
  withinCap (Sock.reconnectAttemptsRef s) x /\
  (forall t, In t (Sock.timers s) ->
             sameNumber (Sock.maxReconnectAttempts (Sock.closure t)) x = true) /\
  (forall ws o, Sock.closureOf ws (Sock.trace s) = Some o ->
                sameNumber (Sock.maxReconnectAttempts o) x = true).

(** The state of a disabled hook. *)
Definition inert (s : State) : Prop :=
  status s = disconnected /\ channelRef s = None /\ channels s = [] /\
  forallb silent (trace s) = true /\
  (forall x, In x (timers s) -> enabled (closure x) = false).

Definition messageEvents (ws : nat) (es : list string) : list Sock.Event :=
  map (Sock.Socket_message ws) es.

Definition digitChar (c : Ascii.ascii) : Prop :=
  48 <= Ascii.nat_of_ascii c <= 57.

Definition sampleRequest (i st : string) : Dash.GatePassRequest :=
  Dash.mkRequest i "student-7" "CSE - BTech - Section A" "family visit"
    "2026-01-01T10:00" st None "2025-12-30" "2025-12-30".

Definition sampleFields : Form.Fields :=
  Form.mkFields "Asha" "S-17" "9876543210" "asha@example.test" "CSE" "BTech"
    "A" "family visit" "2026-01-01T10:00".

(** The realtime events as the teacher dashboard handles them; it
    registers no [onDelete]. *)
Definition teacherStep (st : Dash.TeacherLists)
    (ev : ChangeKind * Dash.GatePassRequest) : Dash.TeacherLists :=
  match fst ev with
  | INSERT => fst (Dash.teacherOnInsert (snd ev) st)
  | UPDATE => fst (Dash.teacherOnUpdate (snd ev) st)
  | DELETE => st
  end.

Definition allPending (l : list Dash.GatePassRequest) : Prop :=
  Forall (fun r => Dash.status r = "pending") l.

(** No field of the form is empty. *)
Definition filled (f : Form.Fields) : Prop :=
  Form.name f <> "" /\ Form.studentId f <> "" /\ Form.mobileNo f <> "" /\
  Form.email f <> "" /\ Form.branch f <> "" /\ Form.course f <> "" /\
  Form.section f <> "" /\ Form.reason f <> "" /\ Form.departureTime f <> "".




(** Events whose code writes [reconnectAttemptsRef]. *)
Definition touchesCounter (ev : Event) : bool :=
  match ev with
  | Confirmation _ _ _ => true
  | Call_reconnect _ => true
  | _ => false
  end.

(** * Proofs *)

Ltac hook_unfold :=
  cbv [connect disconnect reconnect effect cleanup subscribeCallback fire
       callHandler consoleError setStatus setChannel setTimeout clearTimeout
       removeChannel subscribe deliver runListeners runListener bindingsOf
       handle step host confirm
       bind ret throw tryCatch gets modify finalState returns completes
       with_status with_channel with_reconnectTimeoutRef
       with_reconnectAttemptsRef with_channelRef with_callbacksRef
       with_timers with_channels emit] in *.

Ltac break_match :=
  match goal with
  | |- context [match ?x with _ => _ end] =>
      lazymatch x with
      | context [match _ with _ => _ end] => fail
      | _ => destruct x eqn:?
      end
  end.

Ltac crush_hook := hook_unfold; cbn in *; repeat (break_match; cbn in *).

(** ** The subscribe callback *)

Lemma closed_confirmation (p : Props) (err : option string) (s : State) :
  subscribeCallback p CLOSED err s = Returned tt (with_status disconnected s).
Proof. reflexivity. Qed.

Lemma subscribed_confirmation (p : Props) (err : option string) (s : State) :
  subscribeCallback p SUBSCRIBED err s =
  Returned tt (with_reconnectAttemptsRef 0 (with_status connected s)).
Proof. reflexivity. Qed.

Lemma only_failures_arm (p : Props) (st : REALTIME_SUBSCRIBE_STATES)
    (err : option string) (s : State) :
  isFailure st = false ->
  let s' := finalState (subscribeCallback p st err s) in
  timers s' = timers s /\ nextTimer s' = nextTimer s /\
  reconnectTimeoutRef s' = reconnectTimeoutRef s /\ trace s' = trace s.
Proof.
  destruct st; cbn; intros H; try discriminate; auto.
Qed.


(** ** Runs *)

Lemma run_app (evs1 evs2 : list Event) (s : State) :
  run (evs1 ++ evs2) s = run evs2 (run evs1 s).
Proof. unfold run. apply fold_left_app. Qed.

Lemma run_invariant (P : State -> Prop) (ok : Event -> bool) :
  (forall ev s, ok ev = true -> P s -> P (step s ev)) ->
  forall evs s, forallb ok evs = true -> P s -> P (run evs s).
Proof.
  intros Hstep evs. induction evs as [| ev evs IH]; cbn; intros s Hok Hs.
  - exact Hs.
  - apply andb_prop in Hok as [H1 H2]. apply IH; auto.
Qed.

Lemma run_invariant_all (P : State -> Prop) :
  (forall ev s, P s -> P (step s ev)) ->
  forall evs s, P s -> P (run evs s).
Proof.
  intros Hstep evs. induction evs as [| ev evs IH]; cbn; intros s Hs; auto.
Qed.

(** ** Bounded retries *)











(** ** One handle at a time *)

Lemma step_handleInv (ev : Event) (s : State) :
  handleInv s -> handleInv (step s ev).
Proof.
  unfold handleInv. destruct s as [st ch tref att cref cbs q nt chs nh tr].
  cbn. intros (H1 & H2 & H3). subst chs ch.
  destruct ev as [p bk | | p | | t bk | h c err | h k payload | c];
    hook_unfold; cbn in *;
    repeat (first [ rewrite Nat.eqb_refl | rewrite H1 | break_match ]; cbn in *);
    auto; try discriminate.
Qed.

(** C5.  In every run the trace never shows a subscription made while
    an earlier handle was still held ([held] is defined on the whole
    trace, so this covers the points inside [connect] too), the backend
    holds exactly the handle stored in [channelRef], and so at most
    one. *)
Theorem at_most_one_handle (c : Callbacks) (evs : list Event) :
  let s := run evs (init c) in
  held (trace s) = Some (channels s) /\
  channels s = optlist (channelRef s) /\
  List.length (channels s) <= 1.
Proof.
  cbv zeta.
  assert (I : handleInv (run evs (init c))).
  { apply run_invariant_all.
    - intros ev s. apply step_handleInv.
    - repeat split. }
  destruct I as (I1 & I2 & _). repeat split; auto.
  rewrite I2. destruct (channelRef _); cbn; lia.
Qed.

(** ** What arms a retry *)

(** C10.  A CLOSED confirmation only sets the status to [disconnected]:
    the rest of the state, timer queue included, is as before.  More
    generally a confirmation that is neither CHANNEL_ERROR nor TIMED_OUT
    leaves the timer queue, the timer ref and the count of armed retry
    timers untouched, so only those two arm a retry. *)
Theorem closed_never_retries (p : Props) (st : REALTIME_SUBSCRIBE_STATES)
    (err : option string) (s : State) :
  subscribeCallback p CLOSED err s = Returned tt (with_status disconnected s) /\
  (isFailure st = false ->
   let s' := finalState (subscribeCallback p st err s) in
   timers s' = timers s /\ nextTimer s' = nextTimer s /\
   reconnectTimeoutRef s' = reconnectTimeoutRef s /\
   retriesArmed (trace s') = retriesArmed (trace s)).
Proof.
  split; [apply closed_confirmation |].
  intros F. destruct (only_failures_arm p st err s F) as (A & B & C & D).
  cbv zeta. rewrite D. auto.
Qed.

Lemma closed_never_retries_witness :
  let s := mounted quietCallbacks in
  let s' := finalState (subscribeCallback teacherProps CLOSED None s) in
  isFailure CLOSED = false /\
  status s' = disconnected /\ timers s' = timers s /\
  reconnectTimeoutRef s' = reconnectTimeoutRef s /\
  retriesArmed (trace s') = retriesArmed (trace s).
Proof.
  cbv zeta.
  destruct (closed_never_retries teacherProps CLOSED None (mounted quietCallbacks))
    as (A & B).
  destruct (B eq_refl) as (B1 & _ & B3 & B4).
  split; [reflexivity |]. split; [rewrite A; reflexivity |]. auto.
Defined.

(** ** Delivery of change events *)

Lemma deliver_is_callHandler (p : Props) (k : ChangeKind) (payload : string)
    (s : State) :
  deliver p k payload s = callHandler (matchingHandler k) payload s.
Proof.
  destruct s as [st ch tref att cref cbs q nt chs nh tr].
  destruct k; crush_hook; reflexivity.
Qed.

Lemma closureOf_dispatch (h : nat) (c : Callbacks) (ev : ChangeKind * string)
    (tr : list Effect) :
  closureOf h (rev (dispatchTrace c ev) ++ tr) = closureOf h tr.
Proof.
  unfold dispatchTrace. destruct (handlerOf _ c) as [f |]; [| reflexivity].
  destruct (f (snd ev)); reflexivity.
Qed.

Lemma step_change (h : nat) (p : Props) (ev : ChangeKind * string) (s : State) :
  closureOf h (trace s) = Some p ->
  step s (Change h (fst ev) (snd ev)) =
  with_trace (rev (dispatchTrace (callbacksRef s) ev) ++ trace s) s.
Proof.
  intros H. unfold step, host, handle, bind, gets. rewrite H.
  rewrite deliver_is_callHandler. unfold dispatchTrace.
  destruct s as [st ch tref att cref cbs q nt chs nh tr]. destruct ev as [k payload].
  cbn in *. unfold callHandler, bind, gets. cbn.
  destruct (handlerOf (matchingHandler k) cbs) as [f |]; cbn; [| reflexivity].
  destruct (f payload); reflexivity.
Qed.

Lemma run_changes (h : nat) (p : Props) (evs : list (ChangeKind * string))
    (s : State) :
  closureOf h (trace s) = Some p ->
  run (changeEvents h evs) s =
  with_trace (rev (flat_map (dispatchTrace (callbacksRef s)) evs) ++ trace s) s.
Proof.
  revert s. induction evs as [| ev evs IH]; intros s H.
  - destruct s; reflexivity.
  - cbn [changeEvents map run fold_left]. fold (changeEvents h evs).
    fold (run (changeEvents h evs) (step s (Change h (fst ev) (snd ev)))).
    rewrite (step_change h p ev s H). rewrite IH.
    + cbn [flat_map]. rewrite rev_app_distr, <- app_assoc. destruct s; reflexivity.
    + cbn. rewrite closureOf_dispatch. exact H.
Qed.

Lemma filter_isInvoke_dispatch (c : Callbacks) (evs : list (ChangeKind * string)) :
  List.filter isInvoke (flat_map (dispatchTrace c) evs) =
  flat_map (expectedCalls c) evs.
Proof.
  induction evs as [| ev evs IH]; [reflexivity |].
  cbn [flat_map]. rewrite filter_app, IH. f_equal.
  unfold dispatchTrace, expectedCalls.
  destruct (handlerOf _ c) as [f |]; [| reflexivity].
  destruct (f (snd ev)); reflexivity.
Qed.

Lemma filter_reversed {A} (f : A -> bool) (l : list A) :
  List.filter f (rev l) = rev (List.filter f l).
Proof.
  induction l as [| a l IH]; [reflexivity |].
  cbn. rewrite filter_app, IH. cbn.
  destruct (f a); cbn; [reflexivity | apply app_nil_r].
Qed.

(** C7.  A change event of kind [k] reaches exactly the callback
    registered for [k]: delivering it is the call
    [callbacksRef.current.onK?.(payload)], made inside the delivering
    task.  For every sequence of change events on a subscription, the
    handler calls added to the trace are the calls of the matching
    registered handlers, one per event, in the order of the events
    (the trace is newest first, hence the [rev]); nothing is held back
    or reordered, also when a handler throws. *)
Theorem changes_dispatched_in_order (h : nat) (p : Props)
    (evs : list (ChangeKind * string)) (s : State) :
  closureOf h (trace s) = Some p ->
  (forall k payload,
      deliver p k payload s = callHandler (matchingHandler k) payload s) /\
  List.filter isInvoke (trace (run (changeEvents h evs) s)) =
  rev (flat_map (expectedCalls (callbacksRef s)) evs) ++
  List.filter isInvoke (trace s).
Proof.
  intros H. split.
  - intros k payload. apply deliver_is_callHandler.
  - rewrite (run_changes h p evs s H). cbn.
    rewrite filter_app, filter_reversed, filter_isInvoke_dispatch. reflexivity.
Qed.

Lemma changes_dispatched_in_order_witness :
  let s := mounted throwingInsert in
  closureOf 1 (trace s) = Some teacherProps /\
  List.filter isInvoke
    (trace (run (changeEvents 1 [(UPDATE, "e1"); (INSERT, "e2");
                                 (DELETE, "e3"); (UPDATE, "e4")]) s)) =
  [Invoke OnUpdate "e4"; Invoke OnInsert "e2"; Invoke OnUpdate "e1"].
Proof.
  cbv zeta. split; [reflexivity |].
  destruct (changes_dispatched_in_order 1 teacherProps
              [(UPDATE, "e1"); (INSERT, "e2"); (DELETE, "e3"); (UPDATE, "e4")]
              (mounted throwingInsert) eq_refl) as (_ & T).
  rewrite T. reflexivity.
Defined.

(** ** Handler exceptions *)

(** C1, counterexample.  [onInsert] throws and [onError] is registered:
    the exception leaves the event callback uncaught -- the delivering
    task ends with [Thrown] -- and [onError] is not called. *)
Lemma handler_exception_not_caught :
  let s := mounted throwingInsert in
  handle (Change 1 INSERT "row") s =
    Thrown "boom" (emit (Invoke OnInsert "row") s) /\
  trace (step s (Change 1 INSERT "row")) =
    Uncaught "boom" :: Invoke OnInsert "row" :: trace s /\
  ~ In (Invoke OnError "boom") (trace (step s (Change 1 INSERT "row"))).
Proof.
  cbv zeta. split; [vm_compute; reflexivity |].
  split; [vm_compute; reflexivity |].
  vm_compute. intros H.
  repeat (destruct H as [H | H]; [discriminate H |]). exact H.
Qed.

(** C1, amended.  The event callback adds no handling of its own: a
    change event is the call of the matching handler, and when that
    handler throws, the exception leaves the callback unchanged, with
    [onError] not involved.  The callbacks keep nothing between events:
    over any sequence of change events the hook's cells, the timer queue
    and the backend's channels stay as they were, and the trace grows by
    each event's handler call (followed by the host's report when it
    threw), in order -- an exception on one event does not stop the
    handler call for a later one. *)
Theorem handler_exception_propagates (h : nat) (p : Props) (k : ChangeKind)
    (payload : string) (evs : list (ChangeKind * string)) (s : State) :
  closureOf h (trace s) = Some p ->
  handle (Change h k payload) s =
    match handlerOf (matchingHandler k) (callbacksRef s) with
    | None => Returned tt s
    | Some f =>
        match f payload with
        | None => Returned tt (emit (Invoke (matchingHandler k) payload) s)
        | Some e => Thrown e (emit (Invoke (matchingHandler k) payload) s)
        end
    end /\
  run (changeEvents h evs) s =
    with_trace (rev (flat_map (dispatchTrace (callbacksRef s)) evs) ++ trace s) s.
Proof.
  intros H. split; [| apply (run_changes h p evs s H)].
  unfold handle, bind, gets. rewrite H. rewrite deliver_is_callHandler.
  unfold callHandler, bind, gets.
  destruct (handlerOf (matchingHandler k) (callbacksRef s)) as [f |]; [| reflexivity].
  cbn. destruct (f payload); reflexivity.
Qed.

Lemma handler_exception_propagates_witness :
  let s := mounted throwingInsert in
  closureOf 1 (trace s) = Some teacherProps /\
  handle (Change 1 INSERT "e2") s =
    Thrown "boom" (emit (Invoke OnInsert "e2") s) /\
  run (changeEvents 1 [(UPDATE, "e1"); (INSERT, "e2"); (UPDATE, "e3")]) s =
    with_trace ([Invoke OnUpdate "e3"; Uncaught "boom"; Invoke OnInsert "e2";
                 Invoke OnUpdate "e1"] ++ trace s) s.
Proof.
  cbv zeta.
  destruct (handler_exception_propagates 1 teacherProps INSERT "e2"
              [(UPDATE, "e1"); (INSERT, "e2"); (UPDATE, "e3")]
              (mounted throwingInsert) eq_refl) as (A & B).
  split; [reflexivity |]. split; [rewrite A; reflexivity | rewrite B; reflexivity].
Defined.

(** ** connect on an open handle *)

(** C2, counterexample.  The subscription is confirmed (status
    [connected], handle 1 held); [connect] then removes handle 1, makes
    subscription 2 and puts the status back to [connecting]: it is not a
    no-op. *)
Lemma connect_replaces_open_handle :
  let s := mounted quietCallbacks in
  let s' := finalState (connect teacherProps None s) in
  status s = connected /\ channelRef s = Some 1 /\ channels s = [1] /\
  connect teacherProps None s <> Returned tt s /\
  trace s' = Subscribe 2 teacherProps :: RemoveChannel 1 :: trace s /\
  channelRef s' = Some 2 /\ channels s' = [2] /\ status s' = connecting.
Proof.
  cbv zeta. repeat split; try reflexivity.
  vm_compute. intros H. discriminate H.
Qed.

(** C2, amended.  In the raw WebSocket hook [connect] is a no-op when
    the socket in [wsRef] has [readyState] OPEN.  In the Supabase hook
    an enabled [connect] that finds a handle in [channelRef] is not a
    no-op: it removes that handle, sets the status to [connecting] and
    stores a new subscription; [reconnectAttemptsRef], the timer ref and
    the timer queue are left as they were. *)
Theorem connect_with_open_handle (o : Sock.Options) (bk : option string)
    (ws : nat) (sk : Sock.State) (p : Props) (h : nat) (s : State) :
  (Sock.wsRef sk = Some ws ->
   Sock.readyStateOf ws (Sock.sockets sk) = Some Sock.OPEN ->
   Sock.connect o bk sk = Returned tt sk) /\
  (enabled p = true ->
   channelRef s = Some h ->
   connect p None s =
   Returned tt
     (mkState connecting (Some (nextHandle s)) (reconnectTimeoutRef s)
        (reconnectAttemptsRef s) (Some (nextHandle s)) (callbacksRef s)
        (timers s) (nextTimer s)
        (nextHandle s :: List.filter (fun x => negb (Nat.eqb x h)) (channels s))
        (S (nextHandle s))
        (Subscribe (nextHandle s) p :: RemoveChannel h :: trace s))).
Proof.
  split.
  - intros R O. unfold Sock.connect, bind, gets. rewrite R, O. reflexivity.
  - intros E C. destruct s as [st ch tref att cref cbs q nt chs nh tr].
    cbn in C. subst cref. unfold connect. rewrite E. reflexivity.
Qed.

Lemma connect_with_open_handle_witness :
  let sk := Sock.run [Sock.Effect_run socketOptions None;
                      Sock.Socket_open 1 "open"] (Sock.init true) in
  let s := mounted quietCallbacks in
  (Sock.wsRef sk = Some 1 /\
   Sock.readyStateOf 1 (Sock.sockets sk) = Some Sock.OPEN /\
   Sock.connect socketOptions None sk = Returned tt sk) /\
  (enabled teacherProps = true /\ channelRef s = Some 1 /\
   channelRef (finalState (connect teacherProps None s)) = Some 2).
Proof.
  cbv zeta.
  destruct (connect_with_open_handle socketOptions None 1
              (Sock.run [Sock.Effect_run socketOptions None;
                         Sock.Socket_open 1 "open"] (Sock.init true))
              teacherProps 1 (mounted quietCallbacks)) as (A & B).
  split.
  - split; [reflexivity |]. split; [reflexivity |].
    apply A; reflexivity.
  - split; [reflexivity |]. split; [reflexivity |].
    rewrite (B eq_refl eq_refl). reflexivity.
Defined.

(** ** Exceptions out of the public operations *)

(** C8, counterexample.  The backend throws while the subscription is
    built and the consumer's [onError] throws while it is told so:
    [connect] ends with that exception. *)
Lemma connect_throws_when_onError_throws :
  let s := init throwingOnError in
  connect teacherProps (Some "unreachable") s =
    Thrown "toast failed"
      (emit (Invoke OnError "unreachable") (with_status error s)) /\
  ~ completes (connect teacherProps (Some "unreachable") s).
Proof.
  cbv zeta. split; [reflexivity |]. vm_compute. discriminate.
Qed.

Lemma connect_completes (p : Props) (bk : option string) (s : State) :
  onErrorReturns (callbacksRef s) -> completes (connect p bk s).
Proof.
  unfold onErrorReturns. destruct s as [st ch tref att cref cbs q nt chs nh tr].
  cbn. intros H. crush_hook; try reflexivity.
  all: match goal with
       | E : ?f ?e = Some _ |- _ => rewrite H in E; discriminate E
       end.
Qed.

Lemma disconnect_completes (s : State) : completes (disconnect s).
Proof.
  destruct s as [st ch tref att cref cbs q nt chs nh tr].
  crush_hook; reflexivity.
Qed.

Lemma reconnect_completes (p : Props) (s : State) : completes (reconnect p s).
Proof.
  destruct s as [st ch tref att cref cbs q nt chs nh tr].
  crush_hook; reflexivity.
Qed.

Lemma construction_failure_reported (p : Props) (e : string) (s : State) :
  onErrorReturns (callbacksRef s) ->
  enabled p = true ->
  let s' := finalState (connect p (Some e) s) in
  status s' = error /\ channelRef s' = None /\ timers s' = timers s /\
  In (ConsoleError e) (trace s') /\
  (onError (callbacksRef s) <> None -> In (Invoke OnError e) (trace s')).
Proof.
  unfold onErrorReturns. destruct s as [st ch tref att cref cbs q nt chs nh tr].
  cbn. intros H E. unfold connect. rewrite E. cbn.
  crush_hook; repeat split; auto; try congruence; cbn; auto.
  all: match goal with
       | E : ?f ?e = Some _ |- _ => rewrite H in E; discriminate E
       end.
Qed.

(** C8, amended.  [disconnect] and [reconnect] never throw.  [connect]
    and the mount effect never throw when the consumer's [onError]
    returns normally; a failure of the backend while the subscription is
    built then shows as status [error], a call of [onError] with the
    error (when one is registered) and a console message.  The only
    exception that can leave [connect] is one raised by [onError]
    itself. *)
Theorem operations_do_not_throw (p : Props) (bk : option string) (s : State) :
  completes (disconnect s) /\
  completes (reconnect p s) /\
  (onErrorReturns (callbacksRef s) ->
   completes (connect p bk s) /\
   completes (effect p bk s) /\
   (forall e, enabled p = true ->
      let s' := finalState (connect p (Some e) s) in
      status s' = error /\ channelRef s' = None /\ timers s' = timers s /\
      In (ConsoleError e) (trace s') /\
      (onError (callbacksRef s) <> None -> In (Invoke OnError e) (trace s')))).
Proof.
  split; [apply disconnect_completes |].
  split; [apply reconnect_completes |].
  intros H. split; [apply connect_completes; exact H |].
  split.
  - unfold effect. destruct (enabled p);
      [apply connect_completes; exact H | apply disconnect_completes].
  - intros e E. apply construction_failure_reported; assumption.
Qed.

Lemma operations_do_not_throw_witness :
  let s := mounted quietCallbacks in
  let s' := finalState (connect teacherProps (Some "unreachable") s) in
  onErrorReturns (callbacksRef s) /\
  completes (connect teacherProps (Some "unreachable") s) /\
  status s' = error /\
  In (Invoke OnError "unreachable") (trace s').
Proof.
  cbv zeta.
  assert (R : onErrorReturns (callbacksRef (mounted quietCallbacks))).
  { intros e. reflexivity. }
  destruct (operations_do_not_throw teacherProps (Some "unreachable")
              (mounted quietCallbacks)) as (_ & _ & T).
  destruct (T R) as (A & _ & B).
  destruct (B "unreachable" eq_refl) as (B1 & _ & _ & _ & B5).
  split; [exact R |]. split; [exact A |]. split; [exact B1 |].
  apply B5. discriminate.
Defined.

(** ** disconnect, reconnect and the timers they can reach *)

Lemma cleared_not_pending (t : nat) (q : list Timer) :
  ~ In t (map timerId (List.filter (fun x => negb (Nat.eqb (timerId x) t)) q)).
Proof.
  intros H. apply in_map_iff in H as (x & E & I).
  apply filter_In in I as (_ & N). rewrite E, Nat.eqb_refl in N. discriminate N.
Qed.

Lemma tracked_retries_cleared (t : nat) (q : list Timer) :
  (forall x, In x q -> isRetry x = true -> timerId x = t) ->
  List.filter isRetry (List.filter (fun x => negb (Nat.eqb (timerId x) t)) q) = [].
Proof.
  intros H. induction q as [| x q IH]; [reflexivity |].
  cbn. destruct (Nat.eqb (timerId x) t) eqn:E; cbn.
  - apply IH. intros y Hy. apply H. right. exact Hy.
  - destruct (isRetry x) eqn:R.
    + rewrite (H x (or_introl eq_refl) R), Nat.eqb_refl in E. discriminate E.
    + apply IH. intros y Hy. apply H. right. exact Hy.
Qed.

Lemma no_retries (q : list Timer) :
  (forall x, In x q -> isRetry x = true -> False) ->
  List.filter isRetry q = [].
Proof.
  intros H. induction q as [| x q IH]; [reflexivity |].
  cbn. destruct (isRetry x) eqn:R.
  - destruct (H x (or_introl eq_refl) R).
  - apply IH. intros y Hy. apply H. right. exact Hy.
Qed.

(** What [disconnect] does in every state: the timer recorded in the ref
    leaves the queue, the handle is removed, the status is
    [disconnected].  It reaches only the recorded timer; under
    [singleFlight] that is every retry timer. *)
Lemma disconnect_spec (s : State) :
  let s' := finalState (disconnect s) in
  status s' = disconnected /\ channelRef s' = None /\
  reconnectTimeoutRef s' = None /\
  reconnectAttemptsRef s' = reconnectAttemptsRef s /\
  retriesArmed (trace s') = retriesArmed (trace s) /\
  (forall t, reconnectTimeoutRef s = Some t -> ~ In t (map timerId (timers s'))) /\
  (singleFlight s -> pendingRetries s' = []) /\
  (handleInv s -> channels s' = []).
Proof.
  destruct s as [st ch tref att cref cbs q nt chs nh tr].
  unfold singleFlight, handleInv, pendingRetries. cbn.
  destruct tref as [t |], cref as [h |]; cbn; repeat split; auto;
    try discriminate.
  all: try (intros t0 E; injection E as <-; apply cleared_not_pending).
  all: try (intros SF; rewrite tracked_retries_cleared; [reflexivity |];
            intros x Hx R; specialize (SF x Hx R); congruence).
  all: try (intros SF; rewrite no_retries; [reflexivity |];
            intros x Hx R; specialize (SF x Hx R); discriminate SF).
  all: try (intros (_ & C & _); subst chs; cbn; rewrite Nat.eqb_refl; reflexivity).
  all: try (intros (_ & C & _); subst chs; reflexivity).
Qed.

(** [reconnect] is [disconnect], the counter put to 0, and the attempt
    itself left to a 100 ms timer that no ref records. *)
Lemma reconnect_spec (p : Props) (s : State) :
  let d := finalState (disconnect s) in
  reconnect p s =
  Returned tt
    (emit (SetTimeout (nextTimer d) SettleTask 100)
       (with_timers (mkTimer (nextTimer d) SettleTask p 100 :: timers d)
          (S (nextTimer d)) (with_reconnectAttemptsRef 0 d))).
Proof.
  destruct s as [st ch tref att cref cbs q nt chs nh tr].
  destruct tref, cref; reflexivity.
Qed.

Lemma reconnect_clears_tracked_timer (p : Props) (s : State) :
  let s' := finalState (reconnect p s) in
  reconnectTimeoutRef s' = None /\ reconnectAttemptsRef s' = 0 /\
  status s' = disconnected /\ channelRef s' = None /\
  (forall t, reconnectTimeoutRef s = Some t ->
             ~ In t (map timerId (List.filter isRetry (timers s')))) /\
  (singleFlight s -> pendingRetries s' = []).
Proof.
  cbv zeta. rewrite reconnect_spec.
  destruct (disconnect_spec s) as (D1 & D2 & D3 & _ & _ & D6 & D7 & _).
  cbn. repeat split; auto.
  intros t E I. apply (D6 t E).
  apply in_map_iff in I as (x & Ex & Ix). apply filter_In in Ix as (Ix & _).
  apply in_map_iff. exists x. auto.
Qed.

Lemma connect_disabled (p : Props) (bk : option string) (s : State) :
  enabled p = false ->
  connect p bk s = Returned tt (with_status disconnected s).
Proof. intros E. unfold connect. rewrite E. reflexivity. Qed.

Lemma effect_enabled (p : Props) (bk : option string) (s : State) :
  enabled p = true -> effect p bk s = connect p bk s.
Proof. intros E. unfold effect. rewrite E. reflexivity. Qed.

Lemma effect_disabled (p : Props) (bk : option string) (s : State) :
  enabled p = false -> effect p bk s = disconnect s.
Proof. intros E. unfold effect. rewrite E. reflexivity. Qed.

(** Two failure reports for one subscription leave two retry timers in
    the queue; the ref records the second only. *)
Lemma second_failure_overwrites_ref :
  pendingRetries twoFailures = [2; 1] /\
  reconnectTimeoutRef twoFailures = Some 2 /\
  reconnectAttemptsRef twoFailures = 2 /\
  ~ singleFlight twoFailures.
Proof.
  split; [vm_compute; reflexivity |].
  split; [vm_compute; reflexivity |].
  split; [vm_compute; reflexivity |].
  intros SF.
  specialize (SF (mkTimer 1 RetryTask teacherProps 3000)).
  assert (E : reconnectTimeoutRef twoFailures = Some 1).
  { apply SF; [vm_compute; right; left; reflexivity | reflexivity]. }
  vm_compute in E. discriminate E.
Qed.

(** C6, at the failing input.  After two failure reports for one
    subscription, [reconnect] clears timer 2 (the one in the ref) and
    resets the counter, but retry timer 1 is still in the queue.  When
    the 100 ms timer and then timer 1 fire, [connect] runs twice: the
    stale retry removes the subscription the reconnect has just made. *)
Theorem reconnect_leaves_overwritten_retry :
  let s := twoFailures in
  let s' := step s (Call_reconnect teacherProps) in
  let s'' := run [Timer_fires 3 None; Timer_fires 1 None] s' in
  pendingRetries s = [2; 1] /\ reconnectTimeoutRef s = Some 2 /\
  reconnectTimeoutRef s' = None /\ reconnectAttemptsRef s' = 0 /\
  pendingRetries s' = [1] /\
  trace s'' =
    Subscribe 3 teacherProps :: RemoveChannel 2 :: Subscribe 2 teacherProps ::
    trace s'.
Proof. vm_compute. repeat split; reflexivity. Qed.

(** C3, at the failing input.  Mount, manual [disconnect], then the
    removed subscription's callback reports CHANNEL_ERROR: nothing in
    the callback looks at a stop flag, so retry timer 1 is armed and the
    counter goes to 1; when the timer fires, [connect] makes
    subscription 2. *)
Theorem retry_after_manual_disconnect :
  let d := run [Effect_run teacherProps None; Call_disconnect] (init quietCallbacks) in
  let s := step d (Confirmation 1 CHANNEL_ERROR None) in
  let s' := step s (Timer_fires 1 None) in
  status d = disconnected /\ channels d = [] /\ timers d = [] /\
  pendingRetries s = [1] /\ reconnectTimeoutRef s = Some 1 /\
  reconnectAttemptsRef s = 1 /\ status s = error /\
  channelRef s' = Some 2 /\ channels s' = [2] /\ status s' = connecting /\
  trace s' = Subscribe 2 teacherProps :: trace s.
Proof. vm_compute. repeat split; reflexivity. Qed.

(** The 100 ms timer of [reconnect] is recorded nowhere, so a
    [disconnect] that follows within the delay cannot clear it: the
    connection is made after the manual disconnect. *)
Lemma settle_timer_outlives_disconnect :
  let d := run [Effect_run teacherProps None; Call_reconnect teacherProps;
                Call_disconnect] (init quietCallbacks) in
  let s' := step d (Timer_fires 1 None) in
  status d = disconnected /\ channels d = [] /\ map timerId (timers d) = [1] /\
  channelRef s' = Some 2 /\ channels s' = [2] /\ status s' = connecting.
Proof. vm_compute. repeat split; reflexivity. Qed.

(** C9, at the failing input.  After two failure reports for one
    subscription the consumer turns [enabled] off (cleanup of the old
    effect, then the effect of the new render): the handle is removed
    and timer 2 is cleared, but retry timer 1 stays in the queue.  It
    holds the [connect] of the enabled render, so when it fires a
    subscription is made although the descriptor is disabled. *)
Theorem disable_leaves_overwritten_retry :
  let s := run [Effect_cleanup; Effect_run teacherPropsDisabled None] twoFailures in
  let s' := step s (Timer_fires 1 None) in
  status s = disconnected /\ channelRef s = None /\ channels s = [] /\
  reconnectTimeoutRef s = None /\ pendingRetries s = [1] /\
  channelRef s' = Some 2 /\ channels s' = [2] /\ status s' = connecting /\
  trace s' = Subscribe 2 teacherProps :: trace s.
Proof. vm_compute. repeat split; reflexivity. Qed.

(** What the enabled flag does where no retry timer has been
    overwritten: a disabled [connect] only sets the status; turning the
    flag off runs [disconnect] twice, which under [singleFlight] leaves
    no retry timer and no handle; turning it on runs [connect]. *)
Lemma enabled_toggle (on off : Props) (bk : option string) (s : State) :
  enabled on = true -> enabled off = false ->
  connect off bk s = Returned tt (with_status disconnected s) /\
  effect on bk s = connect on bk s /\
  (let s' := finalState (effect off bk (finalState (cleanup s))) in
   status s' = disconnected /\ channelRef s' = None /\
   reconnectTimeoutRef s' = None /\
   (singleFlight s -> handleInv s ->
    pendingRetries (finalState (cleanup s)) = [] /\
    channels (finalState (cleanup s)) = [])).
Proof.
  intros On Off. split; [apply connect_disabled; exact Off |].
  split; [apply effect_enabled; exact On |].
  cbv zeta. rewrite (effect_disabled off bk _ Off).
  destruct (disconnect_spec (finalState (cleanup s))) as (A & B & C & _).
  destruct (disconnect_spec s) as (_ & _ & _ & _ & _ & _ & F & G).
  repeat split; auto.
Qed.

(** ** The stop flag of the raw WebSocket hook *)

Ltac sock_unfold :=
  cbv [Sock.connect Sock.disconnect Sock.reconnect Sock.onopen Sock.onmessage
       Sock.onerror Sock.onclose Sock.fire Sock.socketEvent Sock.callHandler
       Sock.consoleError Sock.setStatus Sock.setTimeout Sock.clearTimeout
       Sock.newWebSocket Sock.close Sock.handle Sock.step Sock.host
       bind ret throw tryCatch gets modify finalState
       Sock.with_status Sock.with_lastMessage Sock.with_wsRef
       Sock.with_reconnectTimeoutRef Sock.with_reconnectAttemptsRef
       Sock.with_shouldReconnectRef Sock.with_isManualCloseRef
       Sock.with_sockets Sock.with_timers Sock.emit] in *.

Lemma sock_disconnect_sets_stop_flag (s : Sock.State) :
  let s' := finalState (Sock.disconnect s) in
  Sock.isManualCloseRef s' = true /\ Sock.shouldReconnectRef s' = false /\
  Sock.reconnectTimeoutRef s' = None /\ Sock.wsRef s' = None /\
  Sock.status s' = Sock.disconnected.
Proof.
  destruct s as [st lm ws tref att sh mc sk ns q nt tr].
  destruct tref, ws; cbn; auto.
Qed.

(** With the flag set, [onclose] arms nothing. *)
Lemma sock_onclose_after_manual_close (o : Sock.Options) (e : string)
    (s : Sock.State) :
  Sock.isManualCloseRef s = true ->
  let s' := finalState (Sock.onclose o e s) in
  Sock.timers s' = Sock.timers s /\
  Sock.reconnectTimeoutRef s' = Sock.reconnectTimeoutRef s /\
  sockRetriesArmed (Sock.trace s') = sockRetriesArmed (Sock.trace s).
Proof.
  destruct s as [st lm ws tref att sh mc sk ns q nt tr]. cbn. intros ->.
  sock_unfold; cbn; repeat (break_match; cbn in * ); auto.
Qed.

Lemma sock_step_keeps_stop_flag (ev : Sock.Event) (s : Sock.State) :
  Sock.isManualCloseRef s = true ->
  Sock.isManualCloseRef (Sock.step s ev) = true /\
  sockRetriesArmed (Sock.trace (Sock.step s ev)) = sockRetriesArmed (Sock.trace s).
Proof.
  destruct s as [st lm ws tref att sh mc sk ns q nt tr]. cbn. intros ->.
  destruct ev; sock_unfold; cbn; repeat (break_match; cbn in * ); auto.
Qed.

(** In the raw hook the flag set by [disconnect] is never cleared again
    (even [reconnect] ends with it set, since it calls [disconnect]
    after clearing it), and no event arms a retry timer while it is
    set. *)
Lemma sock_no_retry_after_disconnect (evs : list Sock.Event) (s : Sock.State) :
  let d := finalState (Sock.disconnect s) in
  sockRetriesArmed (Sock.trace (Sock.run evs d)) = sockRetriesArmed (Sock.trace d).
Proof.
  cbv zeta.
  destruct (sock_disconnect_sets_stop_flag s) as (F & _).
  cbv zeta in F. revert F. generalize (finalState (Sock.disconnect s)).
  induction evs as [| ev evs IH]; intros d F; [reflexivity |].
  cbn. destruct (sock_step_keeps_stop_flag ev d F) as (F' & R).
  unfold Sock.run in IH. rewrite (IH _ F'). exact R.
Qed.

(** The raw hook has the unrecorded 100 ms timer too: [connect] does not
    look at the flag, so a socket is made after the manual disconnect. *)
Lemma sock_settle_timer_outlives_disconnect :
  let d := Sock.run [Sock.Effect_run socketOptions None;
                     Sock.Call_reconnect socketOptions;
                     Sock.Call_disconnect] (Sock.init true) in
  let s' := Sock.step d (Sock.Timer_fires 1 None) in
  Sock.status d = Sock.disconnected /\ Sock.wsRef d = None /\
  Sock.wsRef s' = Some 2 /\ Sock.status s' = Sock.connecting.
Proof. vm_compute. repeat split; reflexivity. Qed.

(** * Further properties of the code *)

(** X1.  [disconnect] is idempotent in both hooks: a second call
    right after the first returns the same state, with nothing added to
    the trace -- no timer is cleared, no channel removed, no socket
    closed a second time. *)
Theorem disconnect_twice (s : State) (k : Sock.State) :
  disconnect (finalState (disconnect s)) = Returned tt (finalState (disconnect s)) /\
  Sock.disconnect (finalState (Sock.disconnect k)) =
  Returned tt (finalState (Sock.disconnect k)).
Proof.
  split.
  - destruct s as [st ch tref att cref cbs q nt chs nh tr].
    destruct tref, cref; vm_compute; reflexivity.
  - destruct k as [st lm ws tref att sh mc sk ns q nt tr].
    destruct tref, ws; vm_compute; reflexivity.
Qed.

Lemma step_connected (ev : Event) (s : State) :
  status (step s ev) = connected ->
  status s = connected \/ isSubscribedConfirmation ev = true.
Proof.
  destruct s as [st ch tref att cref cbs q nt chs nh tr].
  destruct ev as [p bk | | p | | t bk | h c err | h k payload | c];
    crush_hook; intros H; auto; try discriminate H.
Qed.

(** X2.  In every run of the Supabase hook the status is [connected]
    only if the backend has delivered a SUBSCRIBED confirmation: no
    operation of the hook reports a connection by itself. *)
Theorem connected_needs_confirmation (c : Callbacks) (evs : list Event) :
  status (run evs (init c)) = connected ->
  existsb isSubscribedConfirmation evs = true.
Proof.
  induction evs as [| ev evs IH] using rev_ind.
  - cbn. discriminate.
  - rewrite run_app. cbn [run fold_left]. intros H.
    rewrite existsb_app. apply step_connected in H as [H | H].
    + rewrite (IH H). reflexivity.
    + cbn. rewrite H. rewrite orb_true_r. reflexivity.
Qed.

Lemma connected_needs_confirmation_witness :
  status (mounted quietCallbacks) = connected /\
  existsb isSubscribedConfirmation
    [Effect_run teacherProps None; Confirmation 1 SUBSCRIBED None] = true.
Proof.
  split; [reflexivity |].
  apply (connected_needs_confirmation quietCallbacks
           [Effect_run teacherProps None; Confirmation 1 SUBSCRIBED None]).
  reflexivity.
Defined.

(** X3.  A failure while an enabled [connect] builds the subscription
    is not retried: whatever [onError] does, the status is [error], no
    handle is stored or added, and the timer queue, the timer ref and
    the attempt counter are as before. *)
Theorem construction_failure_not_retried (p : Props) (e : string) (s : State) :
  enabled p = true ->
  let s' := finalState (connect p (Some e) s) in
  status s' = error /\ channelRef s' = None /\
  timers s' = timers s /\ nextTimer s' = nextTimer s /\
  reconnectTimeoutRef s' = reconnectTimeoutRef s /\
  reconnectAttemptsRef s' = reconnectAttemptsRef s /\
  retriesArmed (trace s') = retriesArmed (trace s) /\
  nextHandle s' = nextHandle s /\
  incl (channels s') (channels s).
Proof.
  intros E. destruct s as [st ch tref att cref cbs q nt chs nh tr].
  unfold connect. rewrite E. cbn.
  crush_hook; repeat split; auto using incl_refl.
  all: intros x Hx; apply filter_In in Hx; tauto.
Qed.

Lemma construction_failure_not_retried_witness :
  let s := mounted throwingOnError in
  let s' := finalState (connect teacherProps (Some "unreachable") s) in
  enabled teacherProps = true /\
  status s' = error /\ channelRef s' = None /\ timers s' = [] /\
  reconnectAttemptsRef s' = 0.
Proof.
  cbv zeta.
  destruct (construction_failure_not_retried teacherProps "unreachable"
              (mounted throwingOnError) eq_refl) as (A & B & C & _ & _ & F & _).
  split; [reflexivity |]. split; [exact A |]. split; [exact B |].
  split; [rewrite C; reflexivity | rewrite F; reflexivity].
Defined.

(** X4.  When the subscribe callback reports CHANNEL_ERROR or
    TIMED_OUT and the consumer's [onError] throws, the callback ends
    with that exception right after the call: the status is [error],
    but the counter is not raised and no retry timer is armed. *)
Theorem throwing_onError_blocks_retry (p : Props) (st : REALTIME_SUBSCRIBE_STATES)
    (err : option string) (f : Handler) (e : string) (s : State) :
  isFailure st = true ->
  onError (callbacksRef s) = Some f ->
  f (errorMessage err) = Some e ->
  subscribeCallback p st err s =
  Thrown e (emit (Invoke OnError (errorMessage err)) (with_status error s)).
Proof.
  intros F O T. destruct s as [sts ch tref att cref cbs q nt chs nh tr].
  cbn in O.
  destruct st; try discriminate F; hook_unfold; cbn; rewrite O, T; reflexivity.
Qed.

Lemma throwing_onError_blocks_retry_witness :
  let s := mounted throwingOnError in
  let s' := finalState (subscribeCallback teacherProps TIMED_OUT None s) in
  isFailure TIMED_OUT = true /\
  onError (callbacksRef s) = Some (fun _ => Some "toast failed") /\
  status s' = error /\ timers s' = [] /\ reconnectAttemptsRef s' = 0.
Proof.
  cbv zeta.
  rewrite (throwing_onError_blocks_retry teacherProps TIMED_OUT None
             (fun _ => Some "toast failed") "toast failed"
             (mounted throwingOnError) eq_refl eq_refl eq_refl).
  repeat split.
Defined.

(** X5.  Failure and retry compose: with [onError] returning, the
    counter below the maximum and a handle held, a failure confirmation
    arms one 3000 ms timer recorded in the ref and raises the counter
    by one; when that timer fires and the backend accepts, [connect]
    removes the old handle and subscribes again with the same
    descriptor, the status is [connecting] and the counter keeps the
    raised value. *)
Theorem retry_resubscribes (p : Props) (st : REALTIME_SUBSCRIBE_STATES)
    (err : option string) (h : nat) (s : State) :
  isFailure st = true ->
  onErrorReturns (callbacksRef s) ->
  reconnectAttemptsRef s < maxReconnectAttempts ->
  enabled p = true ->
  channelRef s = Some h ->
  let s1 := confirm s (p, st, err) in
  let s2 := step s1 (Timer_fires (nextTimer s) None) in
  status s1 = error /\
  reconnectTimeoutRef s1 = Some (nextTimer s) /\
  timers s1 = mkTimer (nextTimer s) RetryTask p reconnectInterval :: timers s /\
  reconnectAttemptsRef s1 = reconnectAttemptsRef s + 1 /\
  status s2 = connecting /\
  channelRef s2 = Some (nextHandle s) /\
  reconnectAttemptsRef s2 = reconnectAttemptsRef s + 1 /\
  timers s2 =
    List.filter (fun x => negb (Nat.eqb (timerId x) (nextTimer s))) (timers s) /\
  trace s2 = Subscribe (nextHandle s) p :: RemoveChannel h :: trace s1.
Proof.
  unfold onErrorReturns.
  intros F R L E C. destruct s as [sts ch tref att cref cbs q nt chs nh tr].
  cbn in R, L, C |- *. subst cref.
  assert (B : Nat.ltb att maxReconnectAttempts = true) by (apply Nat.ltb_lt; exact L).
  destruct st; try discriminate F; hook_unfold; cbn.
  all: destruct (onError cbs) as [f |] eqn:O; cbn;
    [rewrite R; cbn |];
    change (Nat.leb att 9) with (Nat.ltb att maxReconnectAttempts);
    rewrite B; cbn; unfold findTimer; cbn; rewrite Nat.eqb_refl; cbn;
    rewrite E; cbn; repeat split; rewrite Nat.eqb_refl; reflexivity.
Qed.

Lemma retry_resubscribes_witness :
  let s := mounted quietCallbacks in
  let s1 := confirm s (teacherProps, CHANNEL_ERROR, Some "socket closed") in
  let s2 := step s1 (Timer_fires 1 None) in
  isFailure CHANNEL_ERROR = true /\ onErrorReturns (callbacksRef s) /\
  reconnectAttemptsRef s < maxReconnectAttempts /\
  enabled teacherProps = true /\ channelRef s = Some 1 /\
  status s1 = error /\ status s2 = connecting /\ channelRef s2 = Some 2 /\
  reconnectAttemptsRef s2 = 1.
Proof.
  cbv zeta.
  assert (R : onErrorReturns (callbacksRef (mounted quietCallbacks))).
  { intros e. reflexivity. }
  assert (L : reconnectAttemptsRef (mounted quietCallbacks) < maxReconnectAttempts).
  { vm_compute. lia. }
  destruct (retry_resubscribes teacherProps CHANNEL_ERROR (Some "socket closed") 1
              (mounted quietCallbacks) eq_refl R L eq_refl eq_refl)
    as (A & _ & _ & _ & B & C & D & _).
  split; [reflexivity |]. split; [exact R |]. split; [exact L |].
  split; [reflexivity |]. split; [reflexivity |].
  split; [exact A |]. split; [exact B |]. split; [exact C | exact D].
Defined.

Lemma silent_no_closure (h : nat) (tr : list Effect) :
  forallb silent tr = true -> closureOf h tr = None.
Proof.
  induction tr as [| e tr IH]; [reflexivity |].
  cbn. intros H. apply andb_prop in H as [H1 H2].
  destruct e; try discriminate H1; cbn; auto.
Qed.

Lemma step_inert (ev : Event) (s : State) :
  rendersDisabled ev = true -> inert s -> inert (step s ev).
Proof.
  unfold inert. intros D (I1 & I2 & I3 & I4 & I5).
  destruct s as [st ch tref att cref cbs q nt chs nh tr].
  cbn in I1, I2, I3, I4, I5. subst st cref chs.
  destruct ev as [p bk | | p | | t bk | h c err | h k payload | c].
  - cbn in D. rewrite andb_true_r in D. apply negb_true_iff in D.
    unfold step, host, handle, effect. rewrite D.
    destruct tref; cbn; repeat split; auto.
    intros x Hx. apply filter_In in Hx as [Hx _]. auto.
  - unfold step, host, handle, cleanup.
    destruct tref; cbn; repeat split; auto.
    intros x Hx. apply filter_In in Hx as [Hx _]. auto.
  - cbn in D. rewrite andb_true_r in D. apply negb_true_iff in D.
    unfold step, host, handle.
    destruct tref; cbn; repeat split; auto.
    all: intros x [<- | Hx]; [exact D |]; try apply filter_In in Hx as [Hx _]; auto.
  - unfold step, host, handle.
    destruct tref; cbn; repeat split; auto.
    intros x Hx. apply filter_In in Hx as [Hx _]. auto.
  - unfold step, host, handle, fire, bind, gets, findTimer. cbn.
    destruct (find (fun x => Nat.eqb (timerId x) t) q) as [x |] eqn:Fd; cbn.
    + apply find_some in Fd as [Hx _].
      unfold modify, connect. cbn. rewrite (I5 x Hx). cbn.
      repeat split; auto.
      intros y Hy. apply filter_In in Hy as [Hy _]. auto.
    + repeat split; auto.
  - unfold step, host, handle, bind, gets. cbn.
    rewrite (silent_no_closure h tr I4). cbn. repeat split; auto.
  - unfold step, host, handle, bind, gets. cbn.
    rewrite (silent_no_closure h tr I4). cbn. repeat split; auto.
  - cbn. repeat split; auto.
Qed.

(** X6.  A hook whose every render has [enabled = false] is inert:
    over every sequence of effects, cleanups, [reconnect]s,
    [disconnect]s, timers and backend events it stays [disconnected],
    holds no handle, and its trace shows timer calls only -- no
    backend call and no consumer callback. *)
Theorem disabled_hook_is_inert (c : Callbacks) (evs : list Event) :
  forallb rendersDisabled evs = true ->
  let s := run evs (init c) in
  status s = disconnected /\ channelRef s = None /\ channels s = [] /\
  forallb silent (trace s) = true.
Proof.
  intros H.
  assert (I : inert (run evs (init c))).
  { apply (run_invariant inert rendersDisabled); auto.
    - intros ev s. apply step_inert.
    - repeat split. intros x []. }
  destruct I as (I1 & I2 & I3 & I4 & _). auto.
Qed.

Lemma disabled_hook_is_inert_witness :
  let evs := [Effect_run teacherPropsDisabled None;
              Call_reconnect teacherPropsDisabled;
              Timer_fires 1 None;
              Confirmation 1 CHANNEL_ERROR None;
              Change 1 INSERT "row";
              Effect_cleanup] in
  forallb rendersDisabled evs = true /\
  status (run evs (init quietCallbacks)) = disconnected /\
  channels (run evs (init quietCallbacks)) = [] /\
  forallb silent (trace (run evs (init quietCallbacks))) = true.
Proof.
  cbv zeta.
  destruct (disabled_hook_is_inert quietCallbacks
              [Effect_run teacherPropsDisabled None;
               Call_reconnect teacherPropsDisabled;
               Timer_fires 1 None;
               Confirmation 1 CHANNEL_ERROR None;
               Change 1 INSERT "row";
               Effect_cleanup] eq_refl) as (A & _ & B & C).
  split; [reflexivity |]. auto.
Defined.

(** X7.  Handlers are read from [callbacksRef] at dispatch time:
    after the ref is updated, change events on the existing
    subscription call the new handlers, and the update itself makes no
    backend call and touches no other cell. *)
Theorem callbacks_update_takes_effect (h : nat) (p : Props) (c' : Callbacks)
    (evs : list (ChangeKind * string)) (s : State) :
  closureOf h (trace s) = Some p ->
  run (Callbacks_update c' :: changeEvents h evs) s =
  with_trace (rev (flat_map (dispatchTrace c') evs) ++ trace s)
    (with_callbacksRef c' s).
Proof.
  intros H. cbn [run fold_left].
  fold (run (changeEvents h evs) (step s (Callbacks_update c'))).
  change (step s (Callbacks_update c')) with (with_callbacksRef c' s).
  rewrite (run_changes h p evs (with_callbacksRef c' s)); [reflexivity | exact H].
Qed.

Lemma callbacks_update_takes_effect_witness :
  let s := mounted throwingInsert in
  closureOf 1 (trace s) = Some teacherProps /\
  trace (run (Callbacks_update quietCallbacks ::
              changeEvents 1 [(INSERT, "e1"); (UPDATE, "e2")]) s) =
  Invoke OnUpdate "e2" :: Invoke OnInsert "e1" :: trace s /\
  channelRef (run (Callbacks_update quietCallbacks ::
                   changeEvents 1 [(INSERT, "e1"); (UPDATE, "e2")]) s) = Some 1.
Proof.
  cbv zeta. split; [reflexivity |].
  rewrite (callbacks_update_takes_effect 1 teacherProps quietCallbacks
             [(INSERT, "e1"); (UPDATE, "e2")] (mounted throwingInsert) eq_refl).
  split; reflexivity.
Defined.

(** X8.  Apart from a SUBSCRIBED confirmation and [reconnect], no
    event lowers the attempt counter, and none raises it by more than
    one.  Every event other than a confirmation or [reconnect] leaves
    it unchanged, and so does [connect] itself, whatever the backend
    answers -- in particular the [connect] run by a retry timer. *)
Theorem counter_moves_one_step (ev : Event) (p : Props) (bk : option string)
    (s : State) :
  (resets ev = false ->
   reconnectAttemptsRef s <= reconnectAttemptsRef (step s ev) /\
   reconnectAttemptsRef (step s ev) <= reconnectAttemptsRef s + 1) /\
  (touchesCounter ev = false ->
   reconnectAttemptsRef (step s ev) = reconnectAttemptsRef s) /\
  reconnectAttemptsRef (finalState (connect p bk s)) = reconnectAttemptsRef s.
Proof.
  destruct s as [st ch tref att cref cbs q nt chs nh tr].
  split; [| split].
  - intros R.
    destruct ev as [p' bk' | | p' | | t bk' | h c err | h k payload | c];
      crush_hook; try discriminate R; lia.
  - intros R.
    destruct ev as [p' bk' | | p' | | t bk' | h c err | h k payload | c];
      try discriminate R; crush_hook; reflexivity.
  - crush_hook; reflexivity.
Qed.

Lemma counter_moves_one_step_witness :
  let s := twoFailures in
  resets (Timer_fires 1 None) = false /\
  touchesCounter (Timer_fires 1 None) = false /\
  reconnectAttemptsRef s = 2 /\
  reconnectAttemptsRef (step s (Timer_fires 1 None)) = reconnectAttemptsRef s.
Proof.
  cbv zeta.
  destruct (counter_moves_one_step (Timer_fires 1 None) teacherProps None
              twoFailures) as (_ & B & _).
  split; [reflexivity |]. split; [reflexivity |].
  split; [vm_compute; reflexivity | exact (B eq_refl)].
Defined.

Ltac proj_simpl :=
  cbn [status channel reconnectTimeoutRef reconnectAttemptsRef channelRef
       callbacksRef timers nextTimer channels nextHandle trace
       timerId task closure delay find negb held option_map optlist
       List.filter].

(** X9.  [reconnect] followed by its 100 ms timer is a clean restart:
    from any state that keeps the handle discipline, [reconnect]
    leaves the hook [disconnected] with no handle and the counter at 0,
    and when the timer fires (backend accepting) the hook is
    [connecting] with exactly one, new, handle, the counter still 0 and
    no retry timer recorded. *)
Theorem reconnect_then_settle (p : Props) (s : State) :
  enabled p = true ->
  handleInv s ->
  let s1 := step s (Call_reconnect p) in
  let s2 := step s1 (Timer_fires (nextTimer s) None) in
  status s1 = disconnected /\ channelRef s1 = None /\ channels s1 = [] /\
  reconnectAttemptsRef s1 = 0 /\
  status s2 = connecting /\ channelRef s2 = Some (nextHandle s) /\
  channels s2 = [nextHandle s] /\
  reconnectAttemptsRef s2 = 0 /\ reconnectTimeoutRef s2 = None /\
  held (trace s2) = Some [nextHandle s].
Proof.
  intros E (H1 & H2 & H3). cbv zeta.
  destruct s as [st ch tref att cref cbs q nt chs nh tr].
  cbn in H1, H2, H3. subst chs ch.
  destruct tref as [t |], cref as [h |]; hook_unfold; unfold findTimer;
    proj_simpl; rewrite ?Nat.eqb_refl; proj_simpl; rewrite E; proj_simpl;
    rewrite ?H1; proj_simpl; rewrite ?Nat.eqb_refl; proj_simpl;
    repeat split.
Qed.

Lemma reconnect_then_settle_witness :
  let s := twoFailures in
  let s2 := run [Call_reconnect teacherProps; Timer_fires 3 None] s in
  enabled teacherProps = true /\ handleInv s /\
  status s2 = connecting /\ channels s2 = [2] /\ reconnectAttemptsRef s2 = 0.
Proof.
  cbv zeta.
  assert (I : handleInv twoFailures).
  { vm_compute. repeat split. }
  destruct (reconnect_then_settle teacherProps twoFailures eq_refl I)
    as (_ & _ & _ & _ & A & _ & B & C & _).
  split; [reflexivity |]. split; [exact I |].
  split; [exact A |]. split; [exact B | exact C].
Defined.

(** X10.  [sendMessage] sends only through the socket in [wsRef] and
    only when its [readyState] is OPEN.  After [disconnect] every
    message is dropped with the warning, and so is a message sent right
    after [connect] has made a new socket, before its open event. *)
Theorem sendMessage_needs_open_socket (Obj : Type)
    (stringify : Obj -> option string) (message : Send.Message Obj)
    (o : Sock.Options) (s : Sock.State) :
  (forall ws data,
      Send.sendMessage stringify message s = Send.Sent ws data ->
      Sock.wsRef s = Some ws /\
      Sock.readyStateOf ws (Sock.sockets s) = Some Sock.OPEN) /\
  Send.sendMessage stringify message (finalState (Sock.disconnect s)) =
    Send.Warned "WebSocket is not connected. Message not sent." /\
  (Sock.connect o None s <> Returned tt s ->
   Send.sendMessage stringify message (finalState (Sock.connect o None s)) =
     Send.Warned "WebSocket is not connected. Message not sent.").
Proof.
  split; [| split].
  - intros ws data. unfold Send.sendMessage.
    destruct (Sock.wsRef s) as [w |]; [| discriminate].
    destruct (Sock.readyStateOf w (Sock.sockets s)) as [r |] eqn:R; [| discriminate].
    destruct r; cbn; try discriminate.
    destruct message as [d | ob]; [| destruct (stringify ob)];
      intros H; try discriminate H; injection H as <- _; auto.
  - destruct s as [st lm ws tref att sh mc sk ns q nt tr].
    destruct tref, ws; reflexivity.
  - destruct s as [st lm ws tref att sh mc sk ns q nt tr].
    unfold Sock.connect, bind, gets. cbn.
    destruct ws as [w |]; [destruct (Sock.readyStateOf w sk) as [r |] eqn:R;
                           [destruct r |] |];
      cbn; intros H; try (exfalso; apply H; reflexivity);
      unfold Send.sendMessage; cbn; rewrite Nat.eqb_refl; reflexivity.
Qed.

Lemma sendMessage_needs_open_socket_witness :
  let s := Sock.run [Sock.Effect_run socketOptions None] (Sock.init true) in
  let s' := Sock.step s (Sock.Socket_open 1 "open") in
  Sock.connect socketOptions None (Sock.init true) <> Returned tt (Sock.init true) /\
  Send.sendMessage (fun _ : unit => None) (Send.Text "ping") s =
    Send.Warned "WebSocket is not connected. Message not sent." /\
  Send.sendMessage (fun _ : unit => None) (Send.Text "ping") s' = Send.Sent 1 "ping" /\
  Sock.readyStateOf 1 (Sock.sockets s') = Some Sock.OPEN.
Proof.
  cbv zeta.
  assert (N : Sock.connect socketOptions None (Sock.init true) <>
              Returned tt (Sock.init true)).
  { vm_compute. discriminate. }
  destruct (sendMessage_needs_open_socket unit (fun _ : unit => None) (Send.Text "ping")
              socketOptions (Sock.init true)) as (_ & _ & C).
  destruct (sendMessage_needs_open_socket unit (fun _ : unit => None) (Send.Text "ping")
              socketOptions
              (Sock.step (Sock.run [Sock.Effect_run socketOptions None]
                            (Sock.init true))
                 (Sock.Socket_open 1 "open"))) as (A & _ & _).
  split; [exact N |]. split; [exact (C N) |]. split; [reflexivity |].
  apply (A 1 "ping"). reflexivity.
Defined.

Lemma sock_step_keeps_reconnect_off (ev : Sock.Event) (s : Sock.State) :
  Sock.shouldReconnectRef s = false ->
  Sock.shouldReconnectRef (Sock.step s ev) = false /\
  sockRetriesArmed (Sock.trace (Sock.step s ev)) = sockRetriesArmed (Sock.trace s).
Proof.
  destruct s as [st lm ws tref att sh mc sk ns q nt tr]. cbn. intros ->.
  destruct ev; sock_unfold; cbn; repeat (break_match; cbn in * ); auto;
    try (rewrite andb_false_r in *; discriminate).
Qed.

Lemma sock_run_keeps_reconnect_off (evs : list Sock.Event) (s : Sock.State) :
  Sock.shouldReconnectRef s = false ->
  Sock.shouldReconnectRef (Sock.run evs s) = false /\
  sockRetriesArmed (Sock.trace (Sock.run evs s)) = sockRetriesArmed (Sock.trace s).
Proof.
  revert s. induction evs as [| ev evs IH]; intros s F; [auto |].
  cbn. destruct (sock_step_keeps_reconnect_off ev s F) as (F' & R).
  destruct (IH _ F') as (F'' & R'). unfold Sock.run in *. split; congruence.
Qed.

(** X11.  In the raw hook [reconnect] ends with the stop flags set
    again ([isManualCloseRef] true, [shouldReconnectRef] false), because
    it calls [disconnect] after clearing them; from then on no event
    arms a retry timer. *)
Theorem sock_reconnect_turns_retry_off (o : Sock.Options) (evs : list Sock.Event)
    (s : Sock.State) :
  let r := finalState (Sock.reconnect o s) in
  Sock.isManualCloseRef r = true /\ Sock.shouldReconnectRef r = false /\
  Sock.reconnectAttemptsRef r = 0 /\
  sockRetriesArmed (Sock.trace (Sock.run evs r)) = sockRetriesArmed (Sock.trace r).
Proof.
  cbv zeta.
  assert (F : Sock.isManualCloseRef (finalState (Sock.reconnect o s)) = true /\
              Sock.shouldReconnectRef (finalState (Sock.reconnect o s)) = false /\
              Sock.reconnectAttemptsRef (finalState (Sock.reconnect o s)) = 0).
  { destruct s as [st lm ws tref att sh mc sk ns q nt tr].
    destruct tref, ws; cbn; auto. }
  destruct F as (F1 & F2 & F3). repeat split; auto.
  apply sock_run_keeps_reconnect_off. exact F2.
Qed.

(** X12.  With the option [reconnect: false] the raw hook never arms
    a retry timer, in any run. *)
Theorem sock_reconnect_option_off (evs : list Sock.Event) :
  sockRetriesArmed (Sock.trace (Sock.run evs (Sock.init false))) = 0.
Proof.
  destruct (sock_run_keeps_reconnect_off evs (Sock.init false) eq_refl) as (_ & R).
  exact R.
Qed.

Lemma sock_step_connected (ev : Sock.Event) (s : Sock.State) :
  Sock.status (Sock.step s ev) = Sock.connected ->
  Sock.status s = Sock.connected \/ isSocketOpen ev = true.
Proof.
  destruct s as [st lm ws tref att sh mc sk ns q nt tr].
  destruct ev; sock_unfold; cbn; repeat (break_match; cbn in * );
    intros H; auto; try discriminate H.
Qed.

(** X13.  In every run of the raw hook the status is [connected]
    only if a socket has delivered its open event. *)
Theorem sock_connected_needs_open (b : bool) (evs : list Sock.Event) :
  Sock.status (Sock.run evs (Sock.init b)) = Sock.connected ->
  existsb isSocketOpen evs = true.
Proof.
  induction evs as [| ev evs IH] using rev_ind.
  - cbn. discriminate.
  - unfold Sock.run in *. rewrite fold_left_app. cbn [fold_left]. intros H.
    rewrite existsb_app. apply sock_step_connected in H as [H | H].
    + rewrite (IH H). reflexivity.
    + cbn. rewrite H. rewrite orb_true_r. reflexivity.
Qed.

Lemma sock_connected_needs_open_witness :
  let evs := [Sock.Effect_run socketOptions None; Sock.Socket_open 1 "open"] in
  Sock.status (Sock.run evs (Sock.init true)) = Sock.connected /\
  existsb isSocketOpen evs = true.
Proof.
  cbv zeta. split; [reflexivity |].
  apply (sock_connected_needs_open true
           [Sock.Effect_run socketOptions None; Sock.Socket_open 1 "open"]).
  reflexivity.
Defined.

(** X14.  The raw hook's [connect] never closes the socket it
    replaces: when [wsRef] holds a socket that is not OPEN, a
    successful [connect] stores a new CONNECTING socket and leaves the
    old one, with its [readyState], in the browser; no [close] is
    issued and the counter, flags and timers are unchanged. *)
Theorem sock_connect_keeps_old_socket (o : Sock.Options) (ws : nat)
    (r : Sock.ReadyState) (s : Sock.State) :
  Sock.wsRef s = Some ws ->
  Sock.readyStateOf ws (Sock.sockets s) = Some r ->
  Sock.isOPEN r = false ->
  Sock.connect o None s =
  Returned tt
    (Sock.mkState Sock.connecting (Sock.lastMessage s) (Some (Sock.nextSocket s))
       (Sock.reconnectTimeoutRef s) (Sock.reconnectAttemptsRef s)
       (Sock.shouldReconnectRef s) (Sock.isManualCloseRef s)
       ((Sock.nextSocket s, Sock.CONNECTING) :: Sock.sockets s)
       (S (Sock.nextSocket s)) (Sock.timers s) (Sock.nextTimer s)
       (Sock.NewWebSocket (Sock.nextSocket s) o :: Sock.trace s)).
Proof.
  intros W R O. destruct s as [st lm w tref att sh mc sk ns q nt tr].
  cbn in W, R. subst w. unfold Sock.connect, bind, gets. cbn. rewrite R, O.
  reflexivity.
Qed.

Lemma sock_connect_keeps_old_socket_witness :
  let s := Sock.run [Sock.Effect_run socketOptions None] (Sock.init true) in
  let s' := finalState (Sock.connect socketOptions None s) in
  Sock.wsRef s = Some 1 /\
  Sock.readyStateOf 1 (Sock.sockets s) = Some Sock.CONNECTING /\
  Sock.isOPEN Sock.CONNECTING = false /\
  Sock.wsRef s' = Some 2 /\
  Sock.sockets s' = [(2, Sock.CONNECTING); (1, Sock.CONNECTING)].
Proof.
  cbv zeta.
  rewrite (sock_connect_keeps_old_socket socketOptions 1 Sock.CONNECTING
             (Sock.run [Sock.Effect_run socketOptions None] (Sock.init true))
             eq_refl eq_refl eq_refl).
  repeat split.
Defined.

Lemma sock_step_message (ws : nat) (o : Sock.Options) (e : string) (s : Sock.State) :
  Sock.closureOf ws (Sock.trace s) = Some o ->
  let s' := Sock.step s (Sock.Socket_message ws e) in
  Sock.lastMessage s' = Some e /\ Sock.status s' = Sock.status s /\
  Sock.wsRef s' = Sock.wsRef s /\ Sock.sockets s' = Sock.sockets s /\
  Sock.timers s' = Sock.timers s /\
  Sock.closureOf ws (Sock.trace s') = Some o.
Proof.
  intros C. destruct s as [st lm w tref att sh mc sk ns q nt tr]. cbn in C.
  unfold Sock.step, Sock.host, Sock.handle, Sock.socketEvent, bind, gets. cbn.
  rewrite C. unfold Sock.onmessage, Sock.callHandler, bind, modify, ret, throw. cbn.
  destruct (Sock.onMessage o) as [f |]; cbn; [destruct (f e); cbn |]; auto 10.
Qed.

(** X15.  [lastMessage] is the latest message event of the socket:
    it is set before [onMessage] runs, so also when [onMessage]
    throws; message events change neither the status, nor [wsRef], nor
    the timers. *)
Theorem sock_lastMessage_is_latest (ws : nat) (o : Sock.Options)
    (es : list string) (e : string) (s : Sock.State) :
  Sock.closureOf ws (Sock.trace s) = Some o ->
  let s' := Sock.run (messageEvents ws (es ++ [e])) s in
  Sock.lastMessage s' = Some e /\ Sock.status s' = Sock.status s /\
  Sock.wsRef s' = Sock.wsRef s /\ Sock.timers s' = Sock.timers s.
Proof.
  intros C. cbv zeta. unfold messageEvents, Sock.run.
  rewrite map_app, fold_left_app. cbn [map fold_left].
  assert (I : let m := fold_left Sock.step (map (Sock.Socket_message ws) es) s in
              Sock.closureOf ws (Sock.trace m) = Some o /\
              Sock.status m = Sock.status s /\ Sock.wsRef m = Sock.wsRef s /\
              Sock.timers m = Sock.timers s).
  { clear e. induction es as [| x es IH] using rev_ind; [cbn; auto |].
    cbv zeta in *. rewrite map_app, fold_left_app. cbn [map fold_left].
    destruct IH as (I1 & I2 & I3 & I4).
    destruct (sock_step_message ws o x _ I1) as (_ & A & B & _ & D & F).
    repeat split; congruence. }
  cbv zeta in I. destruct I as (I1 & I2 & I3 & I4).
  destruct (sock_step_message ws o e _ I1) as (L & A & B & _ & D & _).
  repeat split; congruence.
Qed.

Lemma sock_lastMessage_is_latest_witness :
  let s := Sock.run [Sock.Effect_run socketOptions None;
                     Sock.Socket_open 1 "open"] (Sock.init true) in
  Sock.closureOf 1 (Sock.trace s) = Some socketOptions /\
  Sock.lastMessage (Sock.run (messageEvents 1 ["m1"; "m2"; "m3"]) s) = Some "m3".
Proof.
  cbv zeta. split; [reflexivity |].
  apply (sock_lastMessage_is_latest 1 socketOptions ["m1"; "m2"] "m3"
           (Sock.run [Sock.Effect_run socketOptions None;
                      Sock.Socket_open 1 "open"] (Sock.init true)) eq_refl).
Defined.

Lemma atLeast_not_below (n : nat) (x : Sock.Number) :
  Sock.atLeast n x = true -> Sock.below n x = false.
Proof.
  destruct x; cbn; intros H; try discriminate H; try reflexivity.
  rewrite H. reflexivity.
Qed.

(** X17.  Once the counter has reached [maxReconnectAttempts], a
    close event (with [onClose] returning) ends in status [error] and
    arms nothing -- whatever the stop flags say, so also for the close
    that follows a manual [disconnect]. *)
Theorem sock_close_when_exhausted (o : Sock.Options) (e : string) (s : Sock.State) :
  Sock.atLeast (Sock.reconnectAttemptsRef s) (Sock.maxReconnectAttempts o) = true ->
  (forall f, Sock.onClose o = Some f -> f e = None) ->
  let s' := finalState (Sock.onclose o e s) in
  Sock.status s' = Sock.error /\ Sock.timers s' = Sock.timers s /\
  Sock.reconnectTimeoutRef s' = Sock.reconnectTimeoutRef s /\
  Sock.reconnectAttemptsRef s' = Sock.reconnectAttemptsRef s.
Proof.
  intros B2 R. destruct s as [st lm w tref att sh mc sk ns q nt tr].
  cbn [Sock.reconnectAttemptsRef] in B2.
  pose proof (atLeast_not_below _ _ B2) as B1.
  cbv [Sock.onclose Sock.callHandler bind gets modify ret throw finalState
       Sock.setStatus Sock.handlerOf Sock.with_status Sock.emit
       Sock.isManualCloseRef Sock.shouldReconnectRef Sock.reconnectAttemptsRef
       Sock.status Sock.timers Sock.reconnectTimeoutRef].
  destruct (Sock.onClose o) as [f |] eqn:C.
  - rewrite (R f eq_refl), B1, B2, !andb_false_r. auto.
  - rewrite B1, B2, !andb_false_r. auto.
Qed.

Lemma sock_close_when_exhausted_witness :
  let o := Sock.mkOptions "wss://example.test/socket" None None None None None 3000
             (Sock.Finite 0) in
  let s := finalState (Sock.disconnect
                         (Sock.run [Sock.Effect_run o None] (Sock.init true))) in
  Sock.atLeast (Sock.reconnectAttemptsRef s) (Sock.maxReconnectAttempts o) = true /\
  Sock.status s = Sock.disconnected /\
  Sock.status (finalState (Sock.onclose o "closed" s)) = Sock.error.
Proof.
  cbv zeta. split; [reflexivity |]. split; [reflexivity |].
  apply (sock_close_when_exhausted
           (Sock.mkOptions "wss://example.test/socket" None None None None None 3000
              (Sock.Finite 0))
           "closed").
  - reflexivity.
  - intros f H. discriminate H.
Defined.

Lemma below_same (n : nat) (a b : Sock.Number) :
  sameNumber a b = true -> Sock.below n a = Sock.below n b.
Proof.
  destruct a as [| | | q], b as [| | | r]; cbn; intros H;
    try discriminate H; try reflexivity.
  apply Qeq_bool_iff in H. f_equal.
  destruct (Qle_bool q (Sock.counter n)) eqn:A,
           (Qle_bool r (Sock.counter n)) eqn:B; try reflexivity.
  - apply Qle_bool_iff in A. rewrite H in A. apply Qle_bool_iff in A. congruence.
  - apply Qle_bool_iff in B. rewrite <- H in B. apply Qle_bool_iff in B. congruence.
Qed.

Lemma below_natCap (k m : nat) :
  Sock.below k (natCap m) = true -> k < m.
Proof.
  unfold natCap, Sock.below, Sock.counter. intros H.
  apply negb_true_iff in H.
  destruct (Nat.lt_ge_cases k m) as [L | G]; [exact L | exfalso].
  assert (Q : Qle_bool (inject_Z (Z.of_nat m)) (inject_Z (Z.of_nat k)) = true).
  { apply Qle_bool_iff. rewrite <- Zle_Qle. lia. }
  congruence.
Qed.

Ltac cap_timers :=
  let x := fresh "x" in let Hx := fresh "Hx" in
  intros x Hx; cbn in Hx;
  repeat match goal with
         | H : _ \/ _ |- _ => destruct H as [H | H]
         | H : In _ (List.filter _ _) |- _ => apply filter_In in H; destruct H as [H _]
         end;
  subst; cbn; auto.

Ltac cap_trace :=
  let ws := fresh "ws" in let o := fresh "o" in let Hc := fresh "Hc" in
  intros ws o Hc; cbn in Hc;
  repeat match goal with
         | H : context [if ?b then _ else _] |- _ => destruct b eqn:?
         | H : Some _ = Some _ |- _ => injection H as H; subst
         end;
  eauto.

Lemma sock_connect_cap (x : Sock.Number) (o : Sock.Options) (bk : option string)
    (s : Sock.State) :
  sameNumber (Sock.maxReconnectAttempts o) x = true ->
  sockCapInv x s -> sockCapInv x (Sock.host (Sock.connect o bk) s).
Proof.
  unfold sockCapInv. intros C (I1 & I2 & I3).
  destruct s as [st lm w tref att sh mc sk ns q nt tr]. cbn in I1, I2, I3.
  sock_unfold; cbn; repeat (break_match; cbn in * );
    (split; [assumption | split; [cap_timers | cap_trace]]).
Qed.

Lemma sock_disconnect_cap (x : Sock.Number) (s : Sock.State) :
  sockCapInv x s -> sockCapInv x (Sock.host Sock.disconnect s).
Proof.
  unfold sockCapInv. intros (I1 & I2 & I3).
  destruct s as [st lm w tref att sh mc sk ns q nt tr]. cbn in I1, I2, I3.
  sock_unfold; cbn; repeat (break_match; cbn in * );
    (split; [assumption | split; [cap_timers | cap_trace]]).
Qed.

Lemma sock_onclose_cap (x : Sock.Number) (o : Sock.Options) (e : string)
    (s : Sock.State) :
  sameNumber (Sock.maxReconnectAttempts o) x = true ->
  sockCapInv x s -> sockCapInv x (Sock.host (Sock.onclose o e) s).
Proof.
  unfold sockCapInv. intros C (I1 & I2 & I3).
  destruct s as [st lm w tref att sh mc sk ns q nt tr]. cbn in I1, I2, I3.
  cbv [Sock.host Sock.onclose Sock.callHandler bind gets modify ret throw
       Sock.setStatus Sock.setTimeout Sock.handlerOf Sock.with_status Sock.emit
       Sock.with_reconnectAttemptsRef Sock.with_reconnectTimeoutRef
       Sock.with_timers
       Sock.isManualCloseRef Sock.shouldReconnectRef Sock.reconnectAttemptsRef
       Sock.status Sock.timers Sock.reconnectTimeoutRef Sock.nextTimer
       Sock.lastMessage Sock.wsRef Sock.sockets Sock.nextSocket Sock.trace].
  destruct (Sock.onClose o) as [f |]; [destruct (f e) |].
  2, 3: destruct (negb mc && sh && Sock.below att (Sock.maxReconnectAttempts o))
          eqn:B;
        [ apply andb_prop in B as [_ B];
          rewrite (below_same att _ _ C) in B;
          cbn [Sock.reconnectAttemptsRef Sock.timers Sock.trace];
          split; [right; rewrite Nat.add_1_r; exact B |];
          split; [intros t [<- | Ht]; [exact C | auto] | cap_trace]
        | destruct (Sock.atLeast att (Sock.maxReconnectAttempts o));
          cbn [Sock.reconnectAttemptsRef Sock.timers Sock.trace];
          (split; [assumption | split; [assumption | cap_trace]]) ].
  cbn [Sock.reconnectAttemptsRef Sock.timers Sock.trace].
  split; [assumption | split; [assumption | cap_trace]].
Qed.

Lemma sock_step_cap (x : Sock.Number) (ev : Sock.Event) (s : Sock.State) :
  capIs x ev = true -> sockCapInv x s -> sockCapInv x (Sock.step s ev).
Proof.
  intros C I.
  destruct ev as [o bk | | o | | t bk | ws e | ws e | ws e | ws e].
  - cbn in C. rewrite andb_true_r in C. apply sock_connect_cap; assumption.
  - apply sock_disconnect_cap; assumption.
  - cbn in C. rewrite andb_true_r in C.
    unfold sockCapInv in *. destruct I as (I1 & I2 & I3).
    destruct s as [st lm w tref att sh mc sk ns q nt tr]. cbn in I1, I2, I3.
    sock_unfold; cbn; repeat (break_match; cbn in * );
      (split; [left; reflexivity | split; [cap_timers | cap_trace]]).
  - apply sock_disconnect_cap; assumption.
  - unfold Sock.step, Sock.handle, Sock.fire.
    destruct s as [st lm w tref att sh mc sk ns q nt tr].
    destruct (find (fun y => Nat.eqb (Sock.timerId y) t) q) as [y |] eqn:Fd.
    + pose proof I as (_ & I2 & _). cbn in I2.
      apply find_some in Fd as Fd'. destruct Fd' as [Hy _].
      pose proof (I2 y Hy) as Cy.
      assert (J : sockCapInv x
                    (Sock.with_timers
                       (List.filter (fun z => negb (Nat.eqb (Sock.timerId z) t)) q)
                       nt
                       (Sock.mkState st lm w tref att sh mc sk ns q nt tr))).
      { destruct I as (I1 & _ & I3). split; [exact I1 |].
        split; [cap_timers | exact I3]. }
      pose proof (sock_connect_cap x (Sock.closure y) bk _ Cy J) as K.
      unfold Sock.host in *. cbv [bind gets modify] in *. cbn [Sock.timers] in *.
      rewrite Fd. exact K.
    + unfold Sock.host. cbv [bind gets ret]. cbn [Sock.timers]. rewrite Fd. exact I.
  - unfold sockCapInv in *. destruct I as (I1 & I2 & I3).
    destruct s as [st lm w tref att sh mc sk ns q nt tr]. cbn in I1, I2, I3.
    unfold Sock.step, Sock.host, Sock.handle, Sock.socketEvent, bind, gets. cbn.
    destruct (Sock.closureOf ws tr) as [o |] eqn:Cl; cbn; [| auto].
    sock_unfold; cbn; repeat (break_match; cbn in * );
      (split; [left; reflexivity | split; [cap_timers | cap_trace]]).
  - unfold sockCapInv in *. destruct I as (I1 & I2 & I3).
    destruct s as [st lm w tref att sh mc sk ns q nt tr]. cbn in I1, I2, I3.
    unfold Sock.step, Sock.host, Sock.handle, Sock.socketEvent, bind, gets. cbn.
    destruct (Sock.closureOf ws tr) as [o |] eqn:Cl; cbn; [| auto].
    sock_unfold; cbn; repeat (break_match; cbn in * );
      (split; [assumption | split; [cap_timers | cap_trace]]).
  - unfold sockCapInv in *. destruct I as (I1 & I2 & I3).
    destruct s as [st lm w tref att sh mc sk ns q nt tr]. cbn in I1, I2, I3.
    unfold Sock.step, Sock.host, Sock.handle, Sock.socketEvent, bind, gets. cbn.
    destruct (Sock.closureOf ws tr) as [o |] eqn:Cl; cbn; [| auto].
    sock_unfold; cbn; repeat (break_match; cbn in * );
      (split; [assumption | split; [cap_timers | cap_trace]]).
  - destruct s as [st lm w tref att sh mc sk ns q nt tr].
    unfold Sock.step, Sock.handle, Sock.socketEvent.
    destruct (Sock.closureOf ws tr) as [o |] eqn:Cl.
    + pose proof I as (_ & _ & I3). cbn in I3. pose proof (I3 ws o Cl) as Co.
      assert (J : sockCapInv x
                    (Sock.with_sockets (Sock.setReadyState ws Sock.CLOSED sk) ns
                       (Sock.mkState st lm w tref att sh mc sk ns q nt tr))).
      { exact I. }
      pose proof (sock_onclose_cap x o e _ Co J) as K.
      unfold Sock.host in *. cbv [bind gets modify] in *. cbn [Sock.trace] in *.
      rewrite Cl. exact K.
    + unfold Sock.host. cbv [bind gets ret]. cbn [Sock.trace]. rewrite Cl. exact I.
Qed.

(** X16.  When every render of the raw hook uses the same
    [maxReconnectAttempts], whatever number it is, the attempt counter
    is 0 or was raised from a value below the cap, in any run; so for a
    cap that is a count the counter never exceeds it. *)
Theorem sock_attempts_bounded (x : Sock.Number) (b : bool) (evs : list Sock.Event) :
  forallb (capIs x) evs = true ->
  let n := Sock.reconnectAttemptsRef (Sock.run evs (Sock.init b)) in
  (n = 0 \/ Sock.below (pred n) x = true) /\
  (forall m, sameNumber x (natCap m) = true -> n <= m).
Proof.
  intros H.
  assert (I : sockCapInv x (Sock.run evs (Sock.init b))).
  { assert (I0 : sockCapInv x (Sock.init b)).
    { split; [left; reflexivity |].
      split; [intros t [] | intros ws o Hc; discriminate Hc]. }
    revert H I0. generalize (Sock.init b).
    induction evs as [| ev evs IH]; intros s H I0; [exact I0 |].
    cbn in H. apply andb_prop in H as [H1 H2].
    cbn. apply IH; [exact H2 |]. apply sock_step_cap; assumption. }
  destruct I as (I1 & _). cbv zeta. split; [exact I1 |].
  intros m M. destruct I1 as [-> | B]; [lia |].
  rewrite (below_same _ _ _ M) in B. apply below_natCap in B. lia.
Qed.

Lemma sock_attempts_bounded_witness :
  let run_with := fun x : Sock.Number =>
    let o := Sock.mkOptions "wss://example.test/socket" None None None None None
               3000 x in
    [Sock.Effect_run o None; Sock.Socket_close 1 "c1";
     Sock.Timer_fires 1 None; Sock.Socket_close 2 "c2";
     Sock.Timer_fires 2 None; Sock.Socket_close 3 "c3";
     Sock.Timer_fires 3 None; Sock.Socket_close 4 "c4"] in
  let half := Sock.Finite (5 # 2) in
  let two := Sock.Finite 2 in
  let n := fun x => Sock.reconnectAttemptsRef (Sock.run (run_with x) (Sock.init true)) in
  forallb (capIs half) (run_with half) = true /\
  forallb (capIs two) (run_with two) = true /\
  sameNumber two (natCap 2) = true /\
  n half = 3 /\ Sock.below (pred (n half)) half = true /\
  n two <= 2.
Proof.
  cbv zeta.
  split; [reflexivity |]. split; [reflexivity |]. split; [reflexivity |].
  split; [vm_compute; reflexivity |].
  split.
  - destruct (sock_attempts_bounded (Sock.Finite (5 # 2)) true
                [Sock.Effect_run
                   (Sock.mkOptions "wss://example.test/socket" None None None None
                      None 3000 (Sock.Finite (5 # 2))) None;
                 Sock.Socket_close 1 "c1";
                 Sock.Timer_fires 1 None; Sock.Socket_close 2 "c2";
                 Sock.Timer_fires 2 None; Sock.Socket_close 3 "c3";
                 Sock.Timer_fires 3 None; Sock.Socket_close 4 "c4"] eq_refl)
      as [[Z | B] _]; [vm_compute in Z; discriminate Z | exact B].
  - apply (sock_attempts_bounded (Sock.Finite 2) true
             [Sock.Effect_run
                (Sock.mkOptions "wss://example.test/socket" None None None None
                   None 3000 (Sock.Finite 2)) None;
              Sock.Socket_close 1 "c1";
              Sock.Timer_fires 1 None; Sock.Socket_close 2 "c2";
              Sock.Timer_fires 2 None; Sock.Socket_close 3 "c3";
              Sock.Timer_fires 3 None; Sock.Socket_close 4 "c4"] eq_refl).
    reflexivity.
Defined.

Lemma keeps_other_ids (u : Dash.GatePassRequest) (l : list Dash.GatePassRequest) :
  ~ In (Dash.id u)
      (map Dash.id
         (List.filter (fun req => negb (String.eqb (Dash.id req) (Dash.id u))) l)).
Proof.
  intros H. apply in_map_iff in H as (r & E & I).
  apply filter_In in I as (_ & N). rewrite E, String.eqb_refl in N. discriminate N.
Qed.

Lemma filter_ids_NoDup (u : Dash.GatePassRequest) (l : list Dash.GatePassRequest) :
  NoDup (map Dash.id l) ->
  NoDup (map Dash.id
           (List.filter (fun req => negb (String.eqb (Dash.id req) (Dash.id u))) l)).
Proof.
  induction l as [| r l IH]; cbn; intros H; [constructor |].
  inversion H as [| x xs Hx Hn]; subst.
  destruct (String.eqb (Dash.id r) (Dash.id u)); cbn; [auto |].
  constructor; [| auto].
  intros I. apply Hx. apply in_map_iff in I as (r' & E & I').
  apply filter_In in I' as (I' & _). apply in_map_iff. eauto.
Qed.

(** X18.  The teacher dashboard's [onUpdate] moves the updated
    request to the history, whatever its new status: its id is gone
    from the pending list, it heads the history and occurs there
    exactly once; requests with other ids stay in both lists; ids
    that were unique in the history stay unique; no toast is raised. *)
Theorem teacher_update_moves_to_history (u : Dash.GatePassRequest)
    (st : Dash.TeacherLists) :
  let st' := fst (Dash.teacherOnUpdate u st) in
  ~ In (Dash.id u) (map Dash.id (Dash.pendingRequests st')) /\
  hd_error (Dash.allRequests st') = Some u /\
  count_occ string_dec (map Dash.id (Dash.allRequests st')) (Dash.id u) = 1 /\
  (forall r, Dash.id r <> Dash.id u ->
     (In r (Dash.pendingRequests st') <-> In r (Dash.pendingRequests st)) /\
     (In r (Dash.allRequests st') <-> In r (Dash.allRequests st))) /\
  (NoDup (map Dash.id (Dash.allRequests st)) ->
   NoDup (map Dash.id (Dash.allRequests st'))) /\
  snd (Dash.teacherOnUpdate u st) = [].
Proof.
  cbv zeta. cbn [fst snd Dash.teacherOnUpdate Dash.pendingRequests Dash.allRequests].
  split; [apply keeps_other_ids |]. split; [reflexivity |].
  split.
  { cbn [map count_occ]. destruct (string_dec (Dash.id u) (Dash.id u)) as [_ | N];
      [| destruct N; reflexivity].
    f_equal. apply count_occ_not_In. apply keeps_other_ids. }
  split.
  { intros r N. apply String.eqb_neq in N.
    split; [rewrite filter_In | cbn [In]; rewrite filter_In]; rewrite N; cbn.
    - tauto.
    - split; [intros [<- | [H _]]; [| exact H] | tauto].
      rewrite String.eqb_refl in N. discriminate N. }
  split; [| reflexivity].
  intros H. cbn [map]. constructor; [apply keeps_other_ids | apply filter_ids_NoDup; exact H].
Qed.

Lemma teacher_update_moves_to_history_witness :
  let u := sampleRequest "r2" "approved" in
  let st := Dash.mkTeacherLists
              [sampleRequest "r1" "pending"; sampleRequest "r2" "pending"]
              [sampleRequest "r0" "denied"] in
  let st' := fst (Dash.teacherOnUpdate u st) in
  NoDup (map Dash.id (Dash.allRequests st)) /\
  Dash.id (sampleRequest "r1" "pending") <> Dash.id u /\
  map Dash.id (Dash.pendingRequests st') = ["r1"] /\
  NoDup (map Dash.id (Dash.allRequests st')) /\
  In (sampleRequest "r1" "pending") (Dash.pendingRequests st').
Proof.
  cbv zeta.
  assert (N : NoDup (map Dash.id [sampleRequest "r0" "denied"])).
  { constructor; [intros [] | constructor]. }
  assert (D : Dash.id (sampleRequest "r1" "pending") <>
              Dash.id (sampleRequest "r2" "approved")).
  { cbn. discriminate. }
  destruct (teacher_update_moves_to_history (sampleRequest "r2" "approved")
              (Dash.mkTeacherLists
                 [sampleRequest "r1" "pending"; sampleRequest "r2" "pending"]
                 [sampleRequest "r0" "denied"])) as (_ & _ & _ & K & M & _).
  split; [exact N |]. split; [exact D |]. split; [reflexivity |].
  split; [exact (M N) |].
  apply (proj1 (K _ D)). left. reflexivity.
Defined.

(** X19.  Over every sequence of realtime events, the teacher's
    pending list holds only requests whose status is "pending",
    provided it started so: [onInsert] adds pending requests only and
    [onUpdate] only removes. *)
Theorem teacher_pending_list_stays_pending
    (evs : list (ChangeKind * Dash.GatePassRequest)) (st : Dash.TeacherLists) :
  allPending (Dash.pendingRequests st) ->
  allPending (Dash.pendingRequests (fold_left teacherStep evs st)).
Proof.
  revert st. induction evs as [| [k r] evs IH]; intros st H; [exact H |].
  cbn [fold_left]. apply IH. unfold teacherStep. cbn [fst snd].
  destruct k.
  - unfold Dash.teacherOnInsert.
    destruct (String.eqb (Dash.status r) "pending") eqn:E; cbn; [| exact H].
    constructor; [apply String.eqb_eq; exact E | exact H].
  - cbn. unfold allPending in *. rewrite Forall_forall in *.
    intros x Hx. apply filter_In in Hx as [Hx _]. auto.
  - exact H.
Qed.

Lemma teacher_pending_list_stays_pending_witness :
  let evs := [(INSERT, sampleRequest "r3" "pending");
              (INSERT, sampleRequest "r4" "approved");
              (UPDATE, sampleRequest "r1" "denied")] in
  let st := Dash.mkTeacherLists [sampleRequest "r1" "pending"] [] in
  allPending (Dash.pendingRequests st) /\
  allPending (Dash.pendingRequests (fold_left teacherStep evs st)) /\
  map Dash.id (Dash.pendingRequests (fold_left teacherStep evs st)) = ["r3"].
Proof.
  cbv zeta.
  assert (P : allPending [sampleRequest "r1" "pending"]).
  { constructor; [reflexivity | constructor]. }
  split; [exact P |]. split; [| reflexivity].
  apply (teacher_pending_list_stays_pending
           [(INSERT, sampleRequest "r3" "pending");
            (INSERT, sampleRequest "r4" "approved");
            (UPDATE, sampleRequest "r1" "denied")]
           (Dash.mkTeacherLists [sampleRequest "r1" "pending"] [])).
  exact P.
Defined.

(** X20.  The student dashboard's [onUpdate] replaces in place: the
    list keeps its length and the order of its ids; an update for a
    request that is not listed leaves the list as it is (nothing is
    added); a listed request is replaced by the updated row, and every
    other entry is kept. *)
Theorem student_update_replaces_in_place (u : Dash.GatePassRequest)
    (requests : list Dash.GatePassRequest) :
  let requests' := fst (Dash.studentOnUpdate u requests) in
  map Dash.id requests' = map Dash.id requests /\
  (~ In (Dash.id u) (map Dash.id requests) -> requests' = requests) /\
  (In (Dash.id u) (map Dash.id requests) -> In u requests') /\
  (forall r, In r requests' ->
     r = u \/ (In r requests /\ Dash.id r <> Dash.id u)).
Proof.
  cbv zeta. cbn [fst Dash.studentOnUpdate].
  induction requests as [| r l (I1 & I2 & I3 & I4)]; cbn [map In].
  - repeat split; auto; intros ? [].
  - destruct (String.eqb (Dash.id r) (Dash.id u)) eqn:E.
    + apply String.eqb_eq in E. repeat split.
      * rewrite I1, E. reflexivity.
      * intros N. destruct N. left. exact E.
      * intros _. left. reflexivity.
      * intros x [<- | Hx]; [left; reflexivity |].
        destruct (I4 x Hx) as [-> | [A B]]; [left; reflexivity | right; auto].
    + apply String.eqb_neq in E. repeat split.
      * rewrite I1. reflexivity.
      * intros N. rewrite I2; [reflexivity |]. intros H. apply N. right. exact H.
      * intros [H | H]; [destruct (E H) |]. right. apply I3. exact H.
      * intros x [<- | Hx]; [right; auto |].
        destruct (I4 x Hx) as [-> | [A B]]; [left; reflexivity | right; auto].
Qed.

Lemma student_update_replaces_in_place_witness :
  let u := sampleRequest "r9" "approved" in
  let requests := [sampleRequest "r1" "pending"; sampleRequest "r2" "pending"] in
  ~ In (Dash.id u) (map Dash.id requests) /\
  fst (Dash.studentOnUpdate u requests) = requests /\
  List.length (snd (Dash.studentOnUpdate u requests)) = 1.
Proof.
  cbv zeta.
  assert (N : ~ In (Dash.id (sampleRequest "r9" "approved"))
                (map Dash.id [sampleRequest "r1" "pending";
                              sampleRequest "r2" "pending"])).
  { cbn. intros [H | [H | []]]; discriminate H. }
  destruct (student_update_replaces_in_place (sampleRequest "r9" "approved")
              [sampleRequest "r1" "pending"; sampleRequest "r2" "pending"])
    as (_ & K & _).
  split; [exact N |]. split; [exact (K N) | reflexivity].
Defined.

(** X21.  [parseStudentInfo], for every behaviour of [JSON.parse] and
    of the property reads: it never returns both student info and
    notes; notes, when returned, are the input text itself; a non-empty
    input yields one of the two; student info is returned only for
    input that parses and has a truthy [student_name] or
    [student_id_number]. *)
Theorem parseStudentInfo_splits_notes (Parsed : Type)
    (JSON_parse : string -> option Parsed)
    (read : Parsed -> string -> Dash.PropertyRead) (notes : option string) :
  let r := Dash.parseStudentInfo JSON_parse read notes in
  (Dash.studentInfo r = None \/ Dash.actualNotes r = None) /\
  (forall n, Dash.actualNotes r = Some n -> notes = Some n) /\
  (forall n, notes = Some n -> n <> "" ->
     Dash.studentInfo r <> None \/ Dash.actualNotes r = Some n) /\
  (forall i, Dash.studentInfo r = Some i ->
     exists n, notes = Some n /\ JSON_parse n = Some i /\
               (read i "student_name" = Dash.Truthy \/
                read i "student_id_number" = Dash.Truthy)).
Proof.
  cbv zeta. unfold Dash.parseStudentInfo.
  destruct notes as [[| c n] |]; cbn.
  - repeat split; auto; try discriminate.
    intros n H N. injection H as <-. destruct N. reflexivity.
  - destruct (JSON_parse (String c n)) as [p |] eqn:P; cbn.
    + destruct (read p "student_name") eqn:R1; cbn;
        [| destruct (read p "student_id_number") eqn:R2; cbn |];
        repeat split; auto; try discriminate;
        try (intros ? H; injection H as <-; reflexivity);
        try (intros ? H _; injection H as <-;
             first [left; discriminate | right; reflexivity]);
        try (intros i H; injection H as <-; eexists; eauto).
    + repeat split; auto; try discriminate;
        try (intros ? H; injection H as <-; reflexivity);
        try (intros ? H _; injection H as <-; right; reflexivity).
  - repeat split; auto; discriminate.
Qed.

Lemma parseStudentInfo_splits_notes_witness :
  let parse := fun s : string => if String.eqb s "{}" then Some 0 else None in
  let read := fun (_ : nat) (_ : string) => Dash.Falsy in
  Some "back by 6pm" = Some "back by 6pm" /\ "back by 6pm" <> "" /\
  Dash.actualNotes (Dash.parseStudentInfo parse read (Some "back by 6pm")) =
    Some "back by 6pm" /\
  Dash.actualNotes (Dash.parseStudentInfo parse read (Some "{}")) = Some "{}".
Proof.
  cbv zeta.
  destruct (parseStudentInfo_splits_notes nat
              (fun s : string => if String.eqb s "{}" then Some 0 else None)
              (fun (_ : nat) (_ : string) => Dash.Falsy) (Some "back by 6pm"))
    as (_ & _ & K & _).
  split; [reflexivity |]. split; [discriminate |].
  split; [| reflexivity].
  destruct (K "back by 6pm" eq_refl) as [H | H]; [discriminate | | exact H].
  exfalso. apply H. reflexivity.
Defined.

Lemma allDigits_spec (s : string) :
  Form.allDigits s = true <->
  forall c, In c (list_ascii_of_string s) -> digitChar c.
Proof.
  unfold digitChar. induction s as [| a s IH]; cbn.
  - split; [intros _ c [] | reflexivity].
  - unfold Form.isDigit. rewrite !andb_true_iff, !Nat.leb_le, IH. split.
    + intros [[A B] H] c [<- | Hc]; auto.
    + intros H. split; [apply H; left; reflexivity |].
      intros c Hc. apply H. right. exact Hc.
Qed.

Lemma blank_false (s : string) : Form.blank s = false <-> s <> "".
Proof. destruct s; cbn; split; intros H; try discriminate; auto. destruct H; reflexivity. Qed.

Lemma not_blank_fields (f : Form.Fields) :
  Form.blank (Form.name f) || Form.blank (Form.studentId f)
  || Form.blank (Form.mobileNo f) || Form.blank (Form.email f)
  || Form.blank (Form.branch f) || Form.blank (Form.course f)
  || Form.blank (Form.section f) || Form.blank (Form.reason f)
  || Form.blank (Form.departureTime f) = false <-> filled f.
Proof.
  unfold filled. rewrite !orb_false_iff, !blank_false. tauto.
Qed.

Section FormProofs.
Variable parseDate : string -> option Z.
Variable now : Z.
Variable toISOString : Z -> string.
Variable rangeErrorMessage : string.
Variable JSON_stringify : Form.StudentInfo -> string.
Variable insert : Form.Row -> option (option string).

(** X22.  The form inserts a row exactly when no field is empty, the
    mobile number is ten characters, all of them digits 0-9, the
    departure time parses to a time strictly after now, and the insert
    succeeds; the row then has status "pending", the user's id, the
    time in ISO form and the destination built from branch, course and
    section. *)
Theorem form_inserts_only_valid_requests (userId : string) (f : Form.Fields)
    (row : Form.Row) :
  Form.handleSubmit parseDate now toISOString rangeErrorMessage
    JSON_stringify insert userId f = Form.Inserted row <->
  filled f /\
  String.length (Form.mobileNo f) = 10 /\
  (forall c, In c (list_ascii_of_string (Form.mobileNo f)) -> digitChar c) /\
  (exists t, parseDate (Form.departureTime f) = Some t /\ (now < t)%Z /\
     row = Form.mkRow userId
             (Form.branch f ++ " - " ++ Form.course f ++ " - Section "
                ++ Form.section f)
             (Form.reason f) (toISOString t) "pending"
             (JSON_stringify
                (Form.mkStudentInfo (Form.name f) (Form.studentId f)
                   (Form.mobileNo f) (Form.email f) (Form.branch f)
                   (Form.course f) (Form.section f)))) /\
  insert row = None.
Proof.
  unfold Form.handleSubmit.
  rewrite <- not_blank_fields, <- allDigits_spec.
  destruct (_ || Form.blank (Form.departureTime f)).
  { split; [discriminate | intros (H & _); discriminate H]. }
  unfold Form.mobileRegex_test.
  destruct (Nat.eqb (String.length (Form.mobileNo f)) 10) eqn:L; cbn [andb negb].
  2:{ apply Nat.eqb_neq in L. split; [discriminate | intros (_ & H & _); contradiction]. }
  apply Nat.eqb_eq in L.
  destruct (Form.allDigits (Form.mobileNo f)); cbn [negb].
  2:{ split; [discriminate | intros (_ & _ & H & _); discriminate H]. }
  destruct (parseDate (Form.departureTime f)) as [t |].
  2:{ split; [discriminate | intros (_ & _ & _ & (t & H & _) & _); discriminate H]. }
  destruct (Z.leb t now) eqn:T.
  { apply Z.leb_le in T. split; [discriminate |].
    intros (_ & _ & _ & (t' & H & H' & _) & _). injection H as <-. lia. }
  apply Z.leb_gt in T.
  match goal with |- context [insert ?r] => set (r0 := r) end.
  split.
  - destruct (insert r0) as [[m |] |] eqn:I; try discriminate.
    intros H. injection H as <-. repeat split; auto. exists t. auto.
  - intros (_ & _ & _ & (t' & H & _ & ->) & I). injection H as <-.
    fold r0 in I |- *. rewrite I. reflexivity.
Qed.

(** X23.  A departure time that does not parse is not stopped by the
    "must be in the future" check (the comparison with an Invalid Date
    is false): with all fields filled and a valid mobile number the
    submission reaches the [catch] block through the [RangeError] of
    [toISOString], and nothing is inserted. *)
Theorem form_invalid_date_reaches_catch (userId : string) (f : Form.Fields) :
  filled f ->
  Form.mobileRegex_test (Form.mobileNo f) = true ->
  parseDate (Form.departureTime f) = None ->
  Form.handleSubmit parseDate now toISOString rangeErrorMessage
    JSON_stringify insert userId f = Form.Failed rangeErrorMessage.
Proof.
  intros F M P. unfold Form.handleSubmit.
  apply not_blank_fields in F. rewrite F, M, P. reflexivity.
Qed.
End FormProofs.

Lemma form_inserts_only_valid_requests_witness :
  let row := Form.mkRow "student-7" "CSE - BTech - Section A" "family visit"
               "2026-01-01T10:00:00.000Z" "pending" "{...}" in
  let submit := Form.handleSubmit (fun _ => Some 2000%Z) 1000%Z
                  (fun _ => "2026-01-01T10:00:00.000Z") "Invalid time value"
                  (fun _ => "{...}") (fun _ => None) in
  submit "student-7" sampleFields = Form.Inserted row /\
  filled sampleFields /\
  String.length (Form.mobileNo sampleFields) = 10.
Proof.
  cbv zeta.
  destruct (form_inserts_only_valid_requests (fun _ => Some 2000%Z) 1000%Z
              (fun _ => "2026-01-01T10:00:00.000Z") "Invalid time value"
              (fun _ => "{...}") (fun _ => None) "student-7" sampleFields
              (Form.mkRow "student-7" "CSE - BTech - Section A" "family visit"
                 "2026-01-01T10:00:00.000Z" "pending" "{...}")) as [K _].
  destruct (K eq_refl) as (A & B & _).
  split; [reflexivity |]. split; [exact A | exact B].
Defined.

Lemma form_invalid_date_reaches_catch_witness :
  filled sampleFields /\
  Form.mobileRegex_test (Form.mobileNo sampleFields) = true /\
  Form.handleSubmit (fun _ => None) 1000%Z (fun _ => "") "Invalid time value"
    (fun _ => "{...}") (fun _ => None) "student-7" sampleFields =
  Form.Failed "Invalid time value".
Proof.
  assert (F : filled sampleFields).
  { repeat split; discriminate. }
  split; [exact F |]. split; [reflexivity |].
  apply (form_invalid_date_reaches_catch (fun _ => None) 1000%Z (fun _ => "")
           "Invalid time value" (fun _ => "{...}") (fun _ => None) "student-7"
           sampleFields F); reflexivity.
Defined.
